(** * Prompt Nexus front end: presentation and filtering logic

    A shallow embedding of the pure presentation code of the Angular
    components [PromptLibraryComponent], [PromptDetailComponent],
    [AddPromptComponent] and of [ComplexityToColorPipe], together with the
    part of the JavaScript run time these methods rely on:

    - values are the JSON scalars plus [undefined];
    - number values are IEEE-754 binary64; the model keeps the
      integer-valued ones and NaN, and rounds the quotient of a division
      to 53 bits the way the hardware does;
    - a method call on [undefined]/[null], or a call of a method a value
      does not have, throws [TypeError];
    - arrays live in a store, so that "a new array" and "the same array"
      are different things;
    - what belongs to the host (Unicode case mapping, date parsing and
      rendering, exponent notation of huge numbers) is an interface,
      [Host]; [AsciiHost] is one host, for ASCII text, ISO timestamps and
      en-US dates in UTC, on which the code is run on sample data.

    The methods that leave a component are embedded as well, those of
    [LoginComponent] and [NavbarComponent] among them, with the route
    table of [app.routes.ts]:

    - a component acts on a [world]: the local storage, and the list of
      what it asked of its surroundings (navigations, requests, timers,
      clipboard writes), in order; the handlers of a request and of a
      timer are functions of their own, run when the answer comes;
    - the validators of the forms package and the route recognition of
      the router follow the framework, for forms and tables as the
      components have them;
    - [btoa], the address pattern and [parseFloat] of a text are an
      interface, [Platform]; [AsciiPlatform] is one platform. *)

From Stdlib Require Import ZArith Lia Ascii String List DecimalString.
From Stdlib Require Import Floats.SpecFloat.
From stdpp Require Import gmap strings list.

Local Open Scope Z_scope.

(* ===================================================================== *)
(** * The JavaScript run time *)
(* ===================================================================== *)

Module JS.

(** ** Completion records: a call returns or throws *)

Inductive error := TypeError.

Inductive result (A : Type) :=
| Ok (a : A)
| Throw (e : error).
Arguments Ok {A} a.
Arguments Throw {A} e.

#[global] Instance result_ret : MRet result := fun _ a => Ok a.
#[global] Instance result_bind : MBind result := fun _ _ f r =>
  match r with
  | Ok a => f a
  | Throw e => Throw e
  end.

(** ** Values *)

(** A number value of the model: an integer-valued double, or NaN. *)
Inductive number :=
| NaN
| Int (z : Z).

Inductive value :=
| VUndefined
| VNull
| VBool (b : bool)
| VNum (n : number)
| VStr (s : string).

(** A finite double as [mant * 2 ^ expo]: the result of a division. *)
Record dyadic := Dy { mant : Z; expo : Z }.

Inductive fnumber :=
| FNaN
| Fin (x : dyadic).

(** ** The host interface *)

Class Host := {
  (** [StringToNumber], the conversion [ToNumber] applies to a string *)
  StringToNumber : string -> number;
  (** [String.prototype.toLowerCase] and [String.prototype.trim] *)
  String_toLowerCase : string -> string;
  String_trim : string -> string;
  (** [Date.parse]: a time value in milliseconds, or NaN *)
  Date_parse : string -> number;
  (** [toLocaleDateString('en-US', {year, month: 'short', day})] and
      [toLocaleDateString()] of a date with the given time value *)
  Date_toLocaleDateString_enUS : number -> string;
  Date_toLocaleDateString : number -> string;
  (** [Number::toString] of an integer of magnitude [>= 10^21]
      (exponent notation) *)
  Number_toString_exp : Z -> string
}.

(** ** Conversions *)

Definition ToBoolean (v : value) : bool :=
  match v with
  | VUndefined | VNull => false
  | VBool b => b
  | VNum NaN => false
  | VNum (Int z) => negb (z =? 0)
  | VStr s => negb (String.eqb s "")
  end.

Definition ToNumber `{Host} (v : value) : number :=
  match v with
  | VUndefined => NaN
  | VNull => Int 0
  | VBool b => Int (if b then 1 else 0)
  | VNum n => n
  | VStr s => StringToNumber s
  end.

(** [a || b] *)
Definition or_else (a b : value) : value := if ToBoolean a then a else b.

(** [v >= k] and [v <= k] against a numeric literal [k]: the operand is
    converted with [ToNumber]; a comparison with NaN is false. *)
Definition js_ge `{Host} (v : value) (k : Z) : bool :=
  match ToNumber v with
  | NaN => false
  | Int z => k <=? z
  end.

Definition js_le `{Host} (v : value) (k : Z) : bool :=
  match ToNumber v with
  | NaN => false
  | Int z => z <=? k
  end.

(** ** Binary64 arithmetic on integers *)

(** [n / d] rounded to the nearest integer, ties to even ([0 <= n], [0 < d]). *)
Definition rne_div (n d : Z) : Z :=
  let q := n / d in
  let r := n mod d in
  if 2 * r <? d then q
  else if d <? 2 * r then q + 1
  else if Z.even q then q else q + 1.

Definition scale_num (a e : Z) : Z := if e <? 0 then a * 2 ^ (- e) else a.
Definition scale_den (b e : Z) : Z := if e <? 0 then b else b * 2 ^ e.

(** The double nearest to [a / b] for positive integers: the exponent [e]
    is the one that puts [a / (b * 2^e)] in [[2^52, 2^53)], the mantissa is
    that quotient rounded to nearest even. (No overflow or underflow for
    the operands of this program.) *)
Definition fl_div_pos (a b : Z) : dyadic :=
  let e0 := Z.log2 a - Z.log2 b - 52 in
  let e := if scale_num a e0 <? 2 ^ 52 * scale_den b e0 then e0 - 1 else e0 in
  Dy (rne_div (scale_num a e) (scale_den b e)) e.

Definition fl_div (a b : Z) : dyadic :=
  if a =? 0 then Dy 0 0
  else if a <? 0 then
    let x := fl_div_pos (- a) b in Dy (- mant x) (expo x)
  else fl_div_pos a b.

(** The double nearest to the integer [z]. *)
Definition fl_int (z : Z) : Z :=
  let e := Z.log2 (Z.abs z) - 52 in
  if e <=? 0 then z
  else Z.sgn z * (rne_div (Z.abs z) (2 ^ e) * 2 ^ e).

(** An integer that is a double. *)
Definition representable (z : Z) : Prop := fl_int z = z.

(** [a - b] *)
Definition Number_sub (a b : number) : number :=
  match a, b with
  | Int x, Int y => Int (fl_int (x - y))
  | _, _ => NaN
  end.

(** [a / d] for a positive integer literal [d] *)
Definition Number_div (a : number) (d : positive) : fnumber :=
  match a with
  | NaN => FNaN
  | Int z => Fin (fl_div z (Z.pos d))
  end.

Definition Math_floor (x : fnumber) : number :=
  match x with
  | FNaN => NaN
  | Fin (Dy m e) => Int (if e <? 0 then m / 2 ^ (- e) else m * 2 ^ e)
  end.

(** [isNaN(x)] on a number *)
Definition isNaN (n : number) : bool :=
  match n with
  | NaN => true
  | Int _ => false
  end.

(** ** Number to text *)

Definition digit (d : Z) : ascii := ascii_of_nat (48 + Z.to_nat d).

Fixpoint decimal_fuel (fuel : nat) (n : Z) : string :=
  match fuel with
  | O => ""
  | S f =>
      if n <? 10 then String (digit n) ""
      else decimal_fuel f (n / 10) +:+ String (digit (n mod 10)) ""
  end.

(** The decimal digits of [n >= 0], most significant first. A number has
    no more decimal digits than binary ones. *)
Definition decimal (n : Z) : string :=
  decimal_fuel (S (Z.to_nat (Z.log2 n))) n.

(** [j] zeros *)
Fixpoint zeros (j : nat) : string :=
  match j with
  | O => ""
  | S j' => String "0" (zeros j')
  end.

(** The digits [Number::toString] prints for a positive integer double [z]
    of [n] decimal digits: [s] and [k] with [10^(k-1) <= s < 10^k] such that
    [s * 10^(n-k)] reads back as [z] and [k] is as small as possible. For
    [k = 1, 2, ...] the two [s] next to [z / 10^(n-k)] are tried, the
    nearer one first; with [k = n], [s] is [z] itself. *)
Fixpoint shortest_digits (fuel : nat) (k n z : Z) : Z * Z :=
  match fuel with
  | O => (z, n)
  | S f =>
      let p := 10 ^ (n - k) in
      let lo := z / p in
      let hi := lo + 1 in
      let reads_back s :=
        (10 ^ (k - 1) <=? s) && (s <? 10 ^ k) && (fl_int (s * p) =? z) in
      let '(near, far) :=
        if 2 * (z - lo * p) <=? p then (lo, hi) else (hi, lo) in
      if reads_back near then (near, k)
      else if reads_back far then (far, k)
      else shortest_digits f (k + 1) n z
  end.

(** [Number::toString] (radix 10): below [10^21] the digits of [s]
    followed by [n - k] zeros. An integer below [2^53] in size is printed
    with all its digits ([JSFacts.Number_toString_small]); a larger one with
    the digits that tell its double from the next ones, as
    18446744073709552000 for [2^64]. *)
Definition Number_toString `{Host} (n : number) : string :=
  match n with
  | NaN => "NaN"
  | Int z =>
      if z =? 0 then "0"
      else if Z.abs z <? 10 ^ 21 then
        let a := Z.abs z in
        let n := Z.of_nat (String.length (decimal a)) in
        let '(s, k) := shortest_digits (Z.to_nat n) 1 n a in
        (if z <? 0 then "-" else "") +:+ decimal s +:+ zeros (Z.to_nat (n - k))
      else Number_toString_exp z
  end.

Fixpoint String_take (n : nat) (s : string) : string :=
  match n, s with
  | S n', String c s' => String c (String_take n' s')
  | _, _ => ""
  end.

Fixpoint String_drop (n : nat) (s : string) : string :=
  match n, s with
  | S n', String _ s' => String_drop n' s'
  | _, _ => s
  end.

(** The integer [n] for which [n / 10 - x] is closest to zero, the larger
    one when there are two ([0 <= x]). *)
Definition nearest_tenths (x : dyadic) : Z :=
  let (m, e) := x in
  if e <? 0 then (20 * m + 2 ^ (- e)) / 2 ^ (- e + 1)
  else 10 * m * 2 ^ e.

Definition dyadic_abs (x : dyadic) : dyadic := Dy (Z.abs (mant x)) (expo x).

(** [10^21 <= x], for [0 <= x] *)
Definition dyadic_huge (x : dyadic) : bool :=
  let (m, e) := x in
  if e <? 0 then 10 ^ 21 * 2 ^ (- e) <=? m else 10 ^ 21 <=? m * 2 ^ e.

(** The integer value of a double [>= 10^21] *)
Definition dyadic_int (x : dyadic) : Z := mant x * 2 ^ expo x.

(** [Number.prototype.toFixed(1)], step by step as ECMA-262 has it. *)
Definition Number_toFixed1 `{Host} (x : fnumber) : string :=
  match x with
  | FNaN => "NaN"
  | Fin x =>
      let s := if mant x <? 0 then "-" else "" in
      let x := dyadic_abs x in
      if dyadic_huge x then s +:+ Number_toString (Int (dyadic_int x))
      else
        let n := nearest_tenths x in
        let m := if n =? 0 then "0" else decimal n in
        let k := String.length m in
        let m := if (k <=? 1)%nat then "0" +:+ m else m in
        let k := if (k <=? 1)%nat then 2%nat else k in
        let a := String_take (k - 1) m in
        let b := String_drop (k - 1) m in
        s +:+ a +:+ "." +:+ b
  end.

(** ** Methods called on a value *)

(** [v.toString()] *)
Definition toString `{Host} (v : value) : result string :=
  match v with
  | VUndefined | VNull => Throw TypeError
  | VBool b => Ok (if b then "true" else "false")
  | VNum n => Ok (Number_toString n)
  | VStr s => Ok s
  end.

(** [v.toLowerCase()]: only strings have the method. *)
Definition toLowerCase `{Host} (v : value) : result string :=
  match v with
  | VStr s => Ok (String_toLowerCase s)
  | _ => Throw TypeError
  end.

(** [s.includes(t)] *)
Fixpoint includes (s t : string) : bool :=
  String.prefix t s ||
  match s with
  | EmptyString => false
  | String _ s' => includes s' t
  end.

(** ** Arrays *)

(** [xs.filter(f)], front to back; the first callback that throws ends
    the call. *)
Fixpoint Array_filter {A} (f : A -> result bool) (xs : list A) : result (list A) :=
  match xs with
  | [] => Ok []
  | x :: xs' =>
      b ← f x; ys ← Array_filter f xs'; Ok (if b : bool then x :: ys else ys)
  end.


(** ** Dates *)

Definition max_time : Z := 8640000000000000.

(** [TimeClip] *)
Definition TimeClip (t : number) : number :=
  match t with
  | NaN => NaN
  | Int z => if max_time <? Z.abs z then NaN else Int z
  end.

(** The time value of [new Date(v)] *)
Definition Date_new `{Host} (v : value) : number :=
  match v with
  | VStr s => TimeClip (Date_parse s)
  | _ => TimeClip (ToNumber v)
  end.

End JS.

(* ===================================================================== *)
(** * The components *)
(* ===================================================================== *)

(** A record of the REST API, as [JSON.parse] delivers it: an object from
    property names to values. Reading a property the object does not have
    gives [undefined]. *)
Abbreviation raw := (gmap string JS.value).

Definition get (o : raw) (k : string) : JS.value := default JS.VUndefined (o !! k).

(** ** complexity-to-color.pipe.ts *)

Module ComplexityToColorPipe.
Import JS.

Section Pipe.
Context `{Host}.

Definition transform (complexity : value) : result string :=
  s ← toLowerCase complexity;
  Ok (if String.eqb s "simple" then "#D0EBFF"
      else if String.eqb s "moderate" then "#FFF7C3"
      else if String.eqb s "complex" then "#FFE5E5"
      else "#f5f5f5").

End Pipe.
End ComplexityToColorPipe.

(** ** prompt-library.component.ts *)

Module PromptLibraryComponent.
Import JS.

Record Prompt := {
  id : value;
  title : value;
  complexity : string;
  complexityLevel : value;
  description : value;
  views : value;
  date : string
}.

Abbreviation loc := positive.

(** The fields of the component the methods below read and write. The two
    arrays are references into [heap]. *)
Record state := {
  heap : gmap loc (list Prompt);
  prompts : loc;
  searchTerm : string;
  filteredPrompts : loc
}.

Definition read (h : gmap loc (list Prompt)) (l : loc) : list Prompt :=
  default [] (h !! l).

(** What a response can hold where a record is expected: an object, or a
    value that is not one. *)
Inductive element :=
| Object (r : raw)
| Primitive (v : value).

(** What a request can deliver where an array is expected. *)
Inductive body :=
| Array (elements : list element)
| NotArray (e : element).

(** A new array holding [xs]. *)
Definition alloc (h : gmap loc (list Prompt)) (xs : list Prompt)
  : loc * gmap loc (list Prompt) :=
  let l := fresh (dom h) in (l, <[l := xs]> h).

Section Library.
Context `{Host}.

Definition getComplexityText (level : value) : string :=
  if js_ge level 1 && js_le level 3 then "Simple"
  else if js_ge level 4 && js_le level 7 then "Moderate"
  else if js_ge level 8 && js_le level 10 then "Complex"
  else "Unknown".

Definition getComplexityColor (complexity : value) : result string :=
  s ← toLowerCase complexity;
  Ok (if String.eqb s "simple" then "primary"
      else if String.eqb s "moderate" then "accent"
      else if String.eqb s "complex" then "warn"
      else "primary").

Definition formatViews (views : value) : result string :=
  if js_ge views 1000
  then Ok (Number_toFixed1 (Number_div (ToNumber views) 1000) +:+ "k")
  else toString views.

(** The arrow function [loadPrompts] maps over the response. *)
Definition toPrompt (p : raw) : Prompt := {|
  id := get p "id";
  title := get p "title";
  description := get p "content";
  complexityLevel := get p "complexity";
  complexity := getComplexityText (get p "complexity");
  views := or_else (get p "view_count") (VNum (Int 0));
  date := Date_toLocaleDateString_enUS (Date_new (get p "created_at"))
|}.

(** The [next] handler of [loadPrompts]: [data.map(...)] is a new array,
    [[...this.prompts]] another one. *)
Definition loadPrompts_next (st : state) (data : list raw) : state :=
  let '(l1, h1) := alloc (heap st) (map toPrompt data) in
  let '(l2, h2) := alloc h1 (read h1 l1) in
  {| heap := h2; prompts := l1; searchTerm := searchTerm st;
     filteredPrompts := l2 |}.



(** The predicate [filterPrompts] filters with; [||] evaluates its right
    operand only when the left one is false. *)
Definition matches (term : string) (p : Prompt) : result bool :=
  t ← toLowerCase (title p);
  if includes t term then Ok true
  else d ← toLowerCase (description p); Ok (includes d term).

Definition filterPrompts (st : state) : result state :=
  let term := String_trim (String_toLowerCase (searchTerm st)) in
  if negb (ToBoolean (VStr term)) then
    let '(l, h) := alloc (heap st) (read (heap st) (prompts st)) in
    Ok {| heap := h; prompts := prompts st; searchTerm := searchTerm st;
          filteredPrompts := l |}
  else
    found ← Array_filter (matches term) (read (heap st) (prompts st));
    let '(l, h) := alloc (heap st) found in
    Ok {| heap := h; prompts := prompts st; searchTerm := searchTerm st;
          filteredPrompts := l |}.

End Library.
End PromptLibraryComponent.

(** ** prompt-detail.component.ts *)

Module PromptDetailComponent.
Import JS.

(** The object [ngOnInit] stores in [this.prompt]. *)
Record prompt := {
  title : value;
  content : value;
  complexity : value;
  complexityText : string;
  views : value;
  date : string;
  created_at : value
}.

Section Detail.
Context `{Host}.

Definition getComplexityText (level : value) : string :=
  if js_le level 3 then "Simple"
  else if js_le level 7 then "Moderate"
  else "Complex".

Definition formatViews (views : value) : result string :=
  if js_ge views 1000
  then Ok (Number_toFixed1 (Number_div (ToNumber views) 1000) +:+ "k")
  else toString views.

(** [now] is the time value of [new Date()]. *)
Definition getDaysAgo (now : Z) (dateString : value) : number :=
  if negb (ToBoolean dateString) then Int 0
  else
    let created := Date_new dateString in
    if isNaN created then Int 0
    else
      let diff := Number_sub (Int now) created in
      Math_floor (Number_div diff (1000 * 60 * 60 * 24)).

Definition getComplexityClass (level : value) : string :=
  if js_le level 3 then "simple"
  else if js_le level 7 then "moderate"
  else "complex".

(** The [next] handler of [ngOnInit]. *)
Definition ngOnInit_next (data : raw) : prompt := {|
  title := get data "title";
  content := get data "content";
  complexity := get data "complexity";
  complexityText := getComplexityText (get data "complexity");
  views := get data "view_count";
  date := Date_toLocaleDateString (Date_new (get data "created_at"));
  created_at := get data "created_at"
|}.

End Detail.
End PromptDetailComponent.

(** ** add-prompt.component.ts *)

Module AddPromptComponent.
Import JS.

Section AddPrompt.
Context `{Host}.

(** [value] is [this.promptForm.get('complexity')?.value]. *)
Definition getComplexityClass (value : JS.value) : string :=
  if negb (ToBoolean value) then "simple"
  else if js_le value 3 then "simple"
  else if js_le value 7 then "moderate"
  else "complex".

Definition getComplexityText (value : JS.value) : string :=
  if negb (ToBoolean value) then "Simple"
  else if js_le value 3 then "Simple"
  else if js_le value 7 then "Moderate"
  else "Complex".

End AddPrompt.
End AddPromptComponent.

(* ===================================================================== *)
(** * A host: ASCII text, ISO timestamps, en-US dates in UTC *)
(* ===================================================================== *)

Module AsciiHost.
Import JS.

Definition code (c : ascii) : Z := Z.of_nat (nat_of_ascii c).

Definition lower (c : ascii) : ascii :=
  if (65 <=? code c) && (code c <=? 90)
  then ascii_of_nat (nat_of_ascii c + 32) else c.

Fixpoint toLowerCase (s : string) : string :=
  match s with
  | EmptyString => ""
  | String c s' => String (lower c) (toLowerCase s')
  end.

(** Tab, line feed, vertical tab, form feed, carriage return, space. *)
Definition is_space (c : ascii) : bool :=
  ((9 <=? code c) && (code c <=? 13)) || (code c =? 32).

Fixpoint trimStart (s : string) : string :=
  match s with
  | String c s' => if is_space c then trimStart s' else s
  | EmptyString => ""
  end.

Fixpoint trimEnd (s : string) : string :=
  match s with
  | EmptyString => ""
  | String c s' =>
      let r := trimEnd s' in
      if is_space c && String.eqb r "" then "" else String c r
  end.

Definition trim (s : string) : string := trimEnd (trimStart s).

Definition is_digit (c : ascii) : bool := (48 <=? code c) && (code c <=? 57).

(** The number a non-empty run of decimal digits spells. *)
Fixpoint digits_value (acc : Z) (s : string) : option Z :=
  match s with
  | EmptyString => Some acc
  | String c s' =>
      if is_digit c then digits_value (10 * acc + (code c - 48)) s' else None
  end.

Definition unsigned_value (s : string) : number :=
  match s with
  | EmptyString => NaN
  | _ => match digits_value 0 s with
         | Some z => Int (fl_int z)
         | None => NaN
         end
  end.

(** Decimal integers, with a sign and white space around them; the empty
    string is 0. *)
Definition StringToNumber (s : string) : number :=
  match trim s with
  | EmptyString => Int 0
  | String "-" r =>
      match unsigned_value r with
      | Int z => Int (- z)
      | NaN => NaN
      end
  | String "+" r => unsigned_value r
  | t => unsigned_value t
  end.

(** [n] digits off the front of [s]. *)
Fixpoint take_digits (n : nat) (acc : Z) (s : string) : option (Z * string) :=
  match n with
  | O => Some (acc, s)
  | S n' =>
      match s with
      | String c s' =>
          if is_digit c then take_digits n' (10 * acc + (code c - 48)) s'
          else None
      | EmptyString => None
      end
  end.

Definition expect (c : ascii) (s : string) : option string :=
  match s with
  | String c' s' => if Ascii.eqb c c' then Some s' else None
  | EmptyString => None
  end.

Definition leap (y : Z) : bool :=
  ((y mod 4 =? 0) && negb (y mod 100 =? 0)) || (y mod 400 =? 0).

Definition days_in_month (y m : Z) : Z :=
  if m =? 2 then (if leap y then 29 else 28)
  else if (m =? 4) || (m =? 6) || (m =? 9) || (m =? 11) then 30
  else 31.

(** Days from 1970-01-01 to the given day of the proleptic Gregorian
    calendar. *)
Definition days_from_civil (y m d : Z) : Z :=
  let y' := if m <=? 2 then y - 1 else y in
  let era := y' / 400 in
  let yoe := y' - era * 400 in
  let doy := (153 * (if 2 <? m then m - 3 else m + 9) + 2) / 5 + d - 1 in
  let doe := yoe * 365 + yoe / 4 - yoe / 100 + doy in
  era * 146097 + doe - 719468.

(** Year, month and day of the day [z] days after 1970-01-01. *)
Definition civil_from_days (z : Z) : Z * Z * Z :=
  let z := z + 719468 in
  let era := z / 146097 in
  let doe := z - era * 146097 in
  let yoe := (doe - doe / 1460 + doe / 36524 - doe / 146096) / 365 in
  let doy := doe - (365 * yoe + yoe / 4 - yoe / 100) in
  let mp := (5 * doy + 2) / 153 in
  let d := doy - (153 * mp + 2) / 5 + 1 in
  let m := if mp <? 10 then mp + 3 else mp - 9 in
  (if m <=? 2 then yoe + era * 400 + 1 else yoe + era * 400, m, d).

Definition ms_per_day : Z := 86400000.

(** [YYYY-MM-DD] and [YYYY-MM-DDTHH:mm:ss.sssZ], the two forms of the
    ECMAScript date-time format this host reads; anything else is NaN. *)
Definition Date_parse (s : string) : number :=
  let date :=
    '(y, s) ← take_digits 4 0 s; s ← expect "-" s;
    '(m, s) ← take_digits 2 0 s; s ← expect "-" s;
    '(d, s) ← take_digits 2 0 s;
    if (1 <=? m) && (m <=? 12) && (1 <=? d) && (d <=? days_in_month y m)
    then Some (days_from_civil y m d * ms_per_day, s) else None in
  match date with
  | None => NaN
  | Some (day, EmptyString) => Int day
  | Some (day, s) =>
      let time :=
        s ← expect "T" s;
        '(h, s) ← take_digits 2 0 s; s ← expect ":" s;
        '(mi, s) ← take_digits 2 0 s; s ← expect ":" s;
        '(sec, s) ← take_digits 2 0 s; s ← expect "." s;
        '(ms, s) ← take_digits 3 0 s; s ← expect "Z" s;
        if (h <=? 23) && (mi <=? 59) && (sec <=? 59) && String.eqb s ""
        then Some (((h * 60 + mi) * 60 + sec) * 1000 + ms) else None in
      match time with
      | Some t => Int (day + t)
      | None => NaN
      end
  end.

Definition month_name (m : Z) : string :=
  nth (Z.to_nat (m - 1))
    ["Jan"; "Feb"; "Mar"; "Apr"; "May"; "Jun";
     "Jul"; "Aug"; "Sep"; "Oct"; "Nov"; "Dec"] "".

Definition signed_decimal (z : Z) : string :=
  if z <? 0 then "-" +:+ decimal (- z) else decimal z.

(** "Jan 5, 2024" *)
Definition Date_toLocaleDateString_enUS (t : number) : string :=
  match t with
  | NaN => "Invalid Date"
  | Int t =>
      let '(y, m, d) := civil_from_days (t / ms_per_day) in
      month_name m +:+ " " +:+ decimal d +:+ ", " +:+ signed_decimal y
  end.

(** "1/5/2024" *)
Definition Date_toLocaleDateString (t : number) : string :=
  match t with
  | NaN => "Invalid Date"
  | Int t =>
      let '(y, m, d) := civil_from_days (t / ms_per_day) in
      decimal m +:+ "/" +:+ decimal d +:+ "/" +:+ signed_decimal y
  end.

(** The shortest decimal [s * 10^(n-k)] that reads back as the double [z]:
    [k] digits are tried for [k = 1, 2, ...], [s] being [z] rounded to [k]
    significant digits. *)
Fixpoint shortest (fuel : nat) (k : Z) (n : Z) (z : Z) : Z * Z :=
  match fuel with
  | O => (z, n)
  | S f =>
      let p := 10 ^ (n - k) in
      let s := (2 * z + p) / (2 * p) in
      if fl_int (s * p) =? z then (s, k) else shortest f (k + 1) n z
  end.

(** "1.1805916207174113e+21" *)
Definition Number_toString_exp (z : Z) : string :=
  let a := Z.abs z in
  let n := Z.of_nat (String.length (decimal a)) in
  let '(s, k) := shortest 21 1 n a in
  let ds := decimal s in
  (if z <? 0 then "-" else "") +:+
  String_take 1 ds +:+
  (if k =? 1 then "" else "." +:+ String_drop 1 ds) +:+
  "e+" +:+ decimal (n - 1).

#[global] Instance host : Host := {|
  JS.StringToNumber := StringToNumber;
  JS.String_toLowerCase := toLowerCase;
  JS.String_trim := trim;
  JS.Date_parse := Date_parse;
  JS.Date_toLocaleDateString_enUS := Date_toLocaleDateString_enUS;
  JS.Date_toLocaleDateString := Date_toLocaleDateString;
  JS.Number_toString_exp := Number_toString_exp
|}.

End AsciiHost.

(* ===================================================================== *)
(** * Sample data *)
(* ===================================================================== *)

Module Samples.
Import JS PromptLibraryComponent.

(** A record of the API without [view_count]. *)
Definition record_without_views : raw :=
  {[ "id" := VNum (Int 7); "title" := VStr "Sunset";
     "content" := VStr "A COMPLEX sky over the sea";
     "complexity" := VNum (Int 4);
     "created_at" := VStr "2024-01-05T00:00:00.000Z" ]}.

Definition castle_record : raw :=
  {[ "id" := VNum (Int 3); "title" := VStr "Complex castle";
     "content" := VStr "A castle on a hill"; "complexity" := VNum (Int 9);
     "view_count" := VNum (Int 1500);
     "created_at" := VStr "2023-11-20T08:30:00.000Z" ]}.

Definition forest_record : raw :=
  {[ "id" := VNum (Int 9); "title" := VStr "Forest";
     "content" := VStr "Fog between pines"; "complexity" := VNum (Int 2);
     "view_count" := VNum (Int 0);
     "created_at" := VStr "not a date" ]}.

Definition response : list raw :=
  [castle_record; forest_record; record_without_views].

(** The component as constructed: two empty arrays. *)
Definition initial : state :=
  {| heap := {[ 1%positive := []; 2%positive := [] ]}; prompts := 1;
     searchTerm := ""; filteredPrompts := 2 |}.

Definition loaded : state := @loadPrompts_next AsciiHost.host initial response.

Definition view_models : list Prompt := map (@toPrompt AsciiHost.host) response.

(** The user has typed a search term. *)
Definition searching : state :=
  {| heap := heap loaded; prompts := prompts loaded;
     searchTerm := "  Complex  "; filteredPrompts := filteredPrompts loaded |}.



End Samples.

(* ===================================================================== *)
(** * The Standard Library's binary64, to compare with *)
(* ===================================================================== *)

Module Binary64.
Import JS.

(** The double nearest to an integer, and the quotient of two doubles, as
    [SpecFloat] computes them. *)
Definition of_Z (z : Z) : spec_float := binary_normalize 53 1024 z 0 false.

Definition div (a b : Z) : spec_float := SFdiv 53 1024 (of_Z a) (of_Z b).

(** [x] is the number [m * 2^e]. *)
Definition is_value (x : spec_float) (m e : Z) : bool :=
  match x with
  | S754_zero _ => m =? 0
  | S754_finite s mx ex =>
      let mx := if s then Z.neg mx else Z.pos mx in
      let e0 := Z.min e ex in
      mx * 2 ^ (ex - e0) =? m * 2 ^ (e - e0)
  | _ => false
  end.

Definition div_agrees (b a : Z) : bool :=
  is_value (div a b) (mant (fl_div a b)) (expo (fl_div a b)).

Definition int_agrees (z : Z) : bool := is_value (of_Z z) (fl_int z) 0.

(** [n] integers from [a] on, [step] apart. *)
Fixpoint upfrom (n : nat) (a step : Z) : list Z :=
  match n with
  | O => []
  | S n' => a :: upfrom n' (a + step) step
  end.

End Binary64.

(* ===================================================================== *)
(** * The words of the specification *)
(* ===================================================================== *)

Module Spec.

(** "[s] contains [t] as a substring" *)
Definition occurs_in (t s : string) : Prop :=
  exists pre post, s = pre +:+ t +:+ post.

(** "the subsequence of [xs], in original order, of those elements with
    [P]" *)
Inductive subsequence_where {A : Type} (P : A -> Prop) : list A -> list A -> Prop :=
| sw_nil : subsequence_where P [] []
| sw_keep x xs ys :
    P x -> subsequence_where P xs ys -> subsequence_where P (x :: xs) (x :: ys)
| sw_drop x xs ys :
    ~ P x -> subsequence_where P xs ys -> subsequence_where P (x :: xs) ys.

(** A view model whose title and description are text. *)
Definition text_fields (p : PromptLibraryComponent.Prompt) : Prop :=
  exists t d,
    PromptLibraryComponent.title p = JS.VStr t /\
    PromptLibraryComponent.description p = JS.VStr d.

(** "the lowercased title or the lowercased description contains the
    normalized term as a substring" *)
Definition mentions `{JS.Host} (term : string) (p : PromptLibraryComponent.Prompt) : Prop :=
  exists t d,
    PromptLibraryComponent.title p = JS.VStr t /\
    PromptLibraryComponent.description p = JS.VStr d /\
    (occurs_in term (JS.String_toLowerCase t) \/
     occurs_in term (JS.String_toLowerCase d)).

(** The clock readings [now] for which the time elapsed since any date is
    an exact double: until the year 13606. *)
Definition max_clock : Z := 2 ^ 53 - 1 - JS.max_time.

End Spec.

(* ===================================================================== *)
(** * The browser and the framework around the components *)
(* ===================================================================== *)

Module Browser.
Import JS.

(** What a component asks of its surroundings, in the order it asks.
    Console output and change detection are not kept. *)
Inductive effect :=
| Navigate (commands : list value)
| HttpGet (url : string)
| HttpPost (url : string) (body : raw)
| SetTimeout (ms : Z)
| ClipboardWrite (text : string).

Record world := {
  localStorage : gmap string string;
  effects : list effect
}.

Definition emit (e : effect) (w : world) : world :=
  {| localStorage := localStorage w; effects := effects w ++ [e] |}.

(** What the browser and the forms package bring: [btoa], the pattern
    [Validators.email] tests a text against, and [parseFloat] of a text. *)
Class Platform := {
  btoa : string -> string;
  EMAIL_REGEXP_test : string -> bool;
  parseFloat_string : string -> number
}.

(** [a === b] *)
Definition strict_eq (a b : value) : bool :=
  match a, b with
  | VUndefined, VUndefined => true
  | VNull, VNull => true
  | VBool x, VBool y => Bool.eqb x y
  | VNum (Int x), VNum (Int y) => x =? y
  | VStr x, VStr y => String.eqb x y
  | _, _ => false
  end.

(** [a + b] on numbers *)
Definition Number_add (a b : number) : number :=
  match a, b with
  | Int x, Int y => Int (fl_int (x + y))
  | _, _ => NaN
  end.

Section Storage.
Context `{Host}.

(** [ToString], as a template literal and [setItem] apply it *)
Definition ToString (v : value) : string :=
  match v with
  | VUndefined => "undefined"
  | VNull => "null"
  | VBool b => if b then "true" else "false"
  | VNum n => Number_toString n
  | VStr s => s
  end.

Definition getItem (key : string) (w : world) : value :=
  match localStorage w !! key with
  | Some s => VStr s
  | None => VNull
  end.

Definition setItem (key : string) (v : value) (w : world) : world :=
  {| localStorage := <[key := ToString v]> (localStorage w);
     effects := effects w |}.

Definition removeItem (key : string) (w : world) : world :=
  {| localStorage := delete key (localStorage w); effects := effects w |}.

End Storage.

(** The text [JSON.stringify] writes for a string without characters to
    escape, and for an object of already written members. *)
Definition quote : string := String (ascii_of_nat 34) "".

Definition JSON_string (s : string) : string := quote +:+ s +:+ quote.

Fixpoint JSON_members (ms : list (string * string)) : string :=
  match ms with
  | [] => ""
  | [(k, v)] => JSON_string k +:+ ":" +:+ v
  | (k, v) :: ms' => JSON_string k +:+ ":" +:+ v +:+ "," +:+ JSON_members ms'
  end.

Definition JSON_object (ms : list (string * string)) : string :=
  "{" +:+ JSON_members ms +:+ "}".

End Browser.

(** ** The validators of the forms package *)

Module Validators.
Import JS Browser.

Section Validators.
Context `{Host} `{Platform}.

(** [true]: the validator has no error to report. *)
Definition isEmptyInputValue (v : value) : bool :=
  match v with
  | VUndefined | VNull => true
  | VStr s => (String.length s =? 0)%nat
  | _ => false
  end.

Definition required (v : value) : bool := negb (isEmptyInputValue v).

Definition minLength (n : nat) (v : value) : bool :=
  match v with
  | VStr s => (String.length s =? 0)%nat || (n <=? String.length s)%nat
  | _ => true
  end.

Definition parseFloat (v : value) : number :=
  match v with
  | VNum n => n
  | VStr s => parseFloat_string s
  | _ => NaN
  end.

Definition min (k : Z) (v : value) : bool :=
  if isEmptyInputValue v then true
  else match parseFloat v with
       | NaN => true
       | Int z => k <=? z
       end.

Definition max (k : Z) (v : value) : bool :=
  if isEmptyInputValue v then true
  else match parseFloat v with
       | NaN => true
       | Int z => z <=? k
       end.

Definition email (v : value) : bool :=
  if isEmptyInputValue v then true else EMAIL_REGEXP_test (ToString v).

End Validators.
End Validators.

(** ** navbar.component.ts *)

Module NavbarComponent.
Import JS Browser.

Section Navbar.
Context `{Host}.

Definition logout (w : world) : world :=
  let w := removeItem "authToken" w in
  let w := removeItem "user" w in
  emit (Navigate [VStr "/login"]) w.

End Navbar.
End NavbarComponent.

(** ** prompt-library.component.ts, the methods that leave the page *)

Module PromptLibraryActions.
Import JS Browser.

Section Actions.
Context `{Host}.

(** [ngOnInit] calls [loadPrompts], which sends the request. *)
Definition ngOnInit (w : world) : world :=
  emit (HttpGet "http://127.0.0.1:8000/api/prompts/") w.

Definition navigateToPromptDetail (promptId index : value) (w : world) : world :=
  if negb (ToBoolean promptId) then w
  else emit (Navigate [VStr "/prompts"; promptId]) w.

Definition navigateToAddPrompt (w : world) : world :=
  emit (Navigate [VStr "/add"]) w.

Definition logout (w : world) : world :=
  let w := removeItem "authToken" w in
  let w := removeItem "user" w in
  emit (Navigate [VStr "/login"]) w.

End Actions.
End PromptLibraryActions.

(** ** add-prompt.component.ts, the form *)

Module AddPromptForm.
Import JS Browser.

(** The values of the three controls of [promptForm]. *)
Record form := {
  title : value;
  complexity : value;
  description : value
}.

Section Form.
Context `{Host} `{Platform}.

Definition ngOnInit : form :=
  {| title := VStr ""; complexity := VNum (Int 5); description := VStr "" |}.

(** [this.promptForm.valid] *)
Definition valid (f : form) : bool :=
  Validators.required (title f) && Validators.minLength 3 (title f) &&
  (Validators.required (complexity f) && Validators.min 1 (complexity f) &&
   Validators.max 10 (complexity f)) &&
  (Validators.required (description f) && Validators.minLength 20 (description f)).

Definition savePrompt (f : form) (w : world) : world :=
  if valid f then
    let formData : raw :=
      {[ "title" := title f; "content" := description f;
         "complexity" := complexity f ]} in
    emit (HttpPost "http://127.0.0.1:8000/api/prompts/create/" formData) w
  else w.

(** The [next] handler of [savePrompt]; its [error] handler only logs. *)
Definition savePrompt_next (w : world) : world := emit (Navigate [VStr "/"]) w.

Definition savePrompt_error (w : world) : world := w.

Definition goBack (w : world) : world := emit (Navigate [VStr "/"]) w.

End Form.
End AddPromptForm.

(** ** prompt-detail.component.ts, the page *)

Module PromptDetailPage.
Import JS Browser.

Record state := {
  prompt : option PromptDetailComponent.prompt;
  routeId : value;
  apiUrl : string;
  error : value;
  isLoading : bool
}.

Definition constructed : state :=
  {| prompt := None; routeId := VNull; apiUrl := ""; error := VStr "";
     isLoading := true |}.

Section Page.
Context `{Host}.

(** [id] is [this.route.snapshot.paramMap.get('id')]. *)
Definition ngOnInit (id : value) (st : state) (w : world) : state * world :=
  if ToBoolean id then
    let url := "http://127.0.0.1:8000/api/prompts/" +:+ ToString id +:+ "/" in
    ({| prompt := prompt st; routeId := id; apiUrl := url; error := error st;
        isLoading := isLoading st |},
     emit (HttpGet url) w)
  else
    ({| prompt := prompt st; routeId := id; apiUrl := apiUrl st;
        error := VStr "No ID found in route"; isLoading := false |}, w).




Definition goBack (w : world) : world := emit (Navigate [VStr "/"]) w.

End Page.
End PromptDetailPage.

(** ** login.component.ts *)

Module LoginComponent.
Import JS Browser.

(** The values of the two controls of [loginForm] and whether each was
    touched, and the fields of the component. *)
Record state := {
  email : value;
  password : value;
  email_touched : bool;
  password_touched : bool;
  isLoading : bool;
  error : value
}.

Definition HARDCODED_EMAIL : string := "demo@example.com".
Definition HARDCODED_PASSWORD : string := "demoExample123!".

(** [JSON.stringify(this.HARDCODED_USER)] *)
Definition HARDCODED_USER_json : string :=
  JSON_object [("id", "1"); ("name", JSON_string "Demo User");
               ("email", JSON_string "demo@example.com");
               ("role", JSON_string "user")].

(** The component as its constructor leaves it. *)
Definition constructed : state :=
  {| email := VStr ""; password := VStr ""; email_touched := false;
     password_touched := false; isLoading := false; error := VStr "" |}.

Section Login.
Context `{Host} `{Platform}.

(** [this.loginForm.valid] *)
Definition valid (st : state) : bool :=
  Validators.required (email st) && Validators.email (email st) &&
  (Validators.required (password st) && Validators.minLength 6 (password st)).

Definition autoFillCredentials (st : state) : state :=
  {| email := VStr HARDCODED_EMAIL; password := VStr HARDCODED_PASSWORD;
     email_touched := email_touched st; password_touched := password_touched st;
     isLoading := isLoading st; error := error st |}.

Definition ngOnInit (st : state) (w : world) : state * world :=
  let token := getItem "authToken" w in
  let w := if ToBoolean token then emit (Navigate [VStr "/dashboard"]) w else w in
  (autoFillCredentials st, w).

Definition checkHardcodedCredentials (email password : value) : bool :=
  strict_eq email (VStr HARDCODED_EMAIL) &&
  strict_eq password (VStr HARDCODED_PASSWORD).

(** [now] is [Date.now()]. *)
Definition generateMockToken (now : Z) : string :=
  let header :=
    btoa (JSON_object [("alg", JSON_string "HS256"); ("typ", JSON_string "JWT")]) in
  let exp :=
    Number_add (Math_floor (Number_div (Int now) 1000)) (Int (60 * 60)) in
  let payload :=
    btoa (JSON_object [("user_id", "1");
                       ("email", JSON_string "demo@example.com");
                       ("exp", Number_toString exp)]) in
  let signature := "demo_mock_signature" in
  header +:+ "." +:+ payload +:+ "." +:+ signature.

(** [handleSuccessfulLogin] only sets the timer; this is what runs when it
    fires. *)
Definition handleSuccessfulLogin (st : state) (w : world) : state * world :=
  (st, emit (SetTimeout 1000) w).

Definition handleSuccessfulLogin_timeout (now : Z) (st : state) (w : world)
  : state * world :=
  let st := {| email := email st; password := password st;
               email_touched := email_touched st;
               password_touched := password_touched st;
               isLoading := false; error := error st |} in
  let mockToken := generateMockToken now in
  let w := setItem "authToken" (VStr mockToken) w in
  let w := setItem "user" (VStr HARDCODED_USER_json) w in
  (st, emit (Navigate [VStr "/dashboard"]) w).

Definition attemptApiLogin (email password : value) (st : state) (w : world)
  : state * world :=
  let loginData : raw := {[ "email" := email; "password" := password ]} in
  (st, emit (HttpPost "http://127.0.0.1:8000/api/auth/login/" loginData) w).

(** The [next] handler: [token] is [response.token] and [user] is
    [JSON.stringify(response.user)]. *)
Definition attemptApiLogin_next (token user : value) (st : state) (w : world)
  : state * world :=
  let st := {| email := email st; password := password st;
               email_touched := email_touched st;
               password_touched := password_touched st;
               isLoading := false; error := error st |} in
  if ToBoolean token then
    let w := setItem "authToken" token w in
    let w := setItem "user" user w in
    (st, emit (Navigate [VStr "/dashboard"]) w)
  else (st, w).

(** The [error] handler: [err_error] is [err.error] when it is an object. *)
Definition attemptApiLogin_error (err_error : option raw) (st : state)
  : state :=
  let message :=
    match err_error with
    | Some o => get o "message"
    | None => VUndefined
    end in
  {| email := email st; password := password st;
     email_touched := email_touched st; password_touched := password_touched st;
     isLoading := false;
     error := or_else message
                (VStr "Login failed. Please check your credentials.") |}.

Definition markFormGroupTouched (st : state) : state :=
  {| email := email st; password := password st; email_touched := true;
     password_touched := true; isLoading := isLoading st; error := error st |}.

Definition onSubmit (st : state) (w : world) : state * world :=
  if valid st then
    let st := {| email := email st; password := password st;
                 email_touched := email_touched st;
                 password_touched := password_touched st;
                 isLoading := true; error := VStr "" |} in
    if checkHardcodedCredentials (email st) (password st)
    then handleSuccessfulLogin st w
    else attemptApiLogin (email st) (password st) st w
  else (markFormGroupTouched st, w).

Definition copyToClipboard (text : string) (w : world) : world :=
  emit (ClipboardWrite text) w.

Definition quickLogin (st : state) (w : world) : state * world :=
  onSubmit (autoFillCredentials st) w.

End Login.
End LoginComponent.

(* ===================================================================== *)
(** * A platform: base64, addresses of letters and digits *)
(* ===================================================================== *)

Module AsciiPlatform.
Import JS Browser.

Definition base64_char (n : Z) : ascii :=
  ascii_of_nat (Z.to_nat
    (if n <? 26 then 65 + n
     else if n <? 52 then 97 + (n - 26)
     else if n <? 62 then 48 + (n - 52)
     else if n =? 62 then 43 else 47)).

Definition base64_text (ns : list Z) : string :=
  string_of_list_ascii (map base64_char ns).

Fixpoint base64 (bytes : list Z) : string :=
  match bytes with
  | [] => ""
  | [a] => base64_text [a / 4; a mod 4 * 16] +:+ "=="
  | [a; b] => base64_text [a / 4; a mod 4 * 16 + b / 16; b mod 16 * 4] +:+ "="
  | a :: b :: c :: rest =>
      base64_text [a / 4; a mod 4 * 16 + b / 16; b mod 16 * 4 + c / 64; c mod 64]
      +:+ base64 rest
  end.

Definition btoa (s : string) : string :=
  base64 (map AsciiHost.code (list_ascii_of_string s)).

Definition is_alnum (c : ascii) : bool :=
  let n := AsciiHost.code c in
  ((48 <=? n) && (n <=? 57)) || ((65 <=? n) && (n <=? 90)) ||
  ((97 <=? n) && (n <=? 122)).

Fixpoint all_alnum (s : string) : bool :=
  match s with
  | EmptyString => true
  | String c s' => is_alnum c && all_alnum s'
  end.

(** The text up to the first [sep], and the text after it. *)
Fixpoint cut (sep : ascii) (s : string) : string * option string :=
  match s with
  | EmptyString => ("", None)
  | String c s' =>
      if Ascii.eqb c sep then ("", Some s')
      else let '(a, b) := cut sep s' in (String c a, b)
  end.

Definition label_ok (s : string) : bool :=
  negb (String.eqb s "") && (String.length s <=? 63)%nat && all_alnum s.

(** Labels of letters and digits with dots between them. *)
Fixpoint domain_ok (fuel : nat) (s : string) : bool :=
  match fuel with
  | O => false
  | S f =>
      match cut "." s with
      | (l, None) => label_ok l
      | (l, Some rest) => label_ok l && domain_ok f rest
      end
  end.

(** Addresses [local@domain] of letters and digits, within the lengths
    the pattern of the forms package allows: every address accepted here
    is one that pattern accepts. *)
Definition EMAIL_REGEXP_test (s : string) : bool :=
  (String.length s <=? 254)%nat &&
  match cut "@" s with
  | (local, Some domain) =>
      negb (String.eqb local "") && (String.length local <=? 64)%nat &&
      all_alnum local && domain_ok (S (String.length domain)) domain
  | (_, None) => false
  end.

(** The texts that spell a decimal integer; no other text is a number
    here. *)
Definition parseFloat_string (s : string) : number :=
  match AsciiHost.trimStart s with
  | EmptyString => NaN
  | String "-" r =>
      match AsciiHost.unsigned_value r with
      | Int z => Int (- z)
      | NaN => NaN
      end
  | String "+" r => AsciiHost.unsigned_value r
  | t => AsciiHost.unsigned_value t
  end.

#[global] Instance platform : Platform := {|
  Browser.btoa := btoa;
  Browser.EMAIL_REGEXP_test := EMAIL_REGEXP_test;
  Browser.parseFloat_string := parseFloat_string
|}.

End AsciiPlatform.

(* ===================================================================== *)
(** * The list as the page shows it *)
(* ===================================================================== *)

Module PromptLibraryPage.
Import JS PromptLibraryComponent.

(** An assignment to [this.searchTerm], as the bound search field makes. *)
Definition set_searchTerm (s : string) (st : state) : state :=
  {| heap := heap st; prompts := prompts st; searchTerm := s;
     filteredPrompts := filteredPrompts st |}.

(** The view models of [this.filteredPrompts]. *)
Definition shown (st : state) : list Prompt := read (heap st) (filteredPrompts st).

(** What a call leaves in [this.filteredPrompts], or that it threw. *)
Definition shown_after (r : result state) : result (list Prompt) :=
  match r with
  | Ok st => Ok (shown st)
  | Throw e => Throw e
  end.

(** A record whose [title] and [content] are text. *)
Definition text_record (r : raw) : Prop :=
  exists t c, r !! "title" = Some (VStr t) /\ r !! "content" = Some (VStr c).

End PromptLibraryPage.

(** The sample list, searched. *)
Module SearchSamples.
Import JS PromptLibraryComponent Samples.

(** A record without [content]: the view model has no description. *)
Definition record_without_content : raw :=
  {[ "id" := VNum (Int 12); "title" := VStr "Complex dunes";
     "complexity" := VNum (Int 8); "view_count" := VNum (Int 2300);
     "created_at" := VStr "2024-03-01T00:00:00.000Z" ]}.

Definition loaded_dunes : state :=
  @loadPrompts_next AsciiHost.host initial [record_without_content; castle_record].

(** The state a call returned, or [st] when it threw. *)
Definition state_after (st : state) (r : result state) : state :=
  match r with
  | Ok st' => st'
  | Throw _ => st
  end.

Definition searched_dunes : state :=
  state_after loaded_dunes
    (@filterPrompts AsciiHost.host
       (PromptLibraryPage.set_searchTerm "COMPLEX d" loaded_dunes)).

End SearchSamples.

(* ===================================================================== *)
(** * The router and the route table *)
(* ===================================================================== *)

(** ** The router of the framework

    Route tables as [app.routes.ts] has them: routes without children,
    outlets, guards or matchers of their own, and URLs of plain segments
    (no query, fragment or matrix parameters). *)

Module Router.
Import JS Browser.

(** [s.split(sep)] *)
Fixpoint split (sep : ascii) (s : string) : list string :=
  match s with
  | EmptyString => [""]
  | String c s' =>
      if Ascii.eqb c sep then "" :: split sep s'
      else match split sep s' with
           | h :: t => String c h :: t
           | [] => [String c ""]
           end
  end.

Definition nonempty (s : string) : bool := negb (String.eqb s "").

Inductive match_kind := prefix | full.

(** An entry of a [Routes] array; [pathMatch] is [prefix] when the entry
    does not give it. *)
Record Route {C : Type} := {
  path : string;
  component : option C;
  redirectTo : option string;
  pathMatch : match_kind
}.
Arguments Route : clear implicits.

Abbreviation Params := (gmap string string).

(** What recognizing the segments of a URL against a table ends with: a
    route is activated, nothing is left to activate, no route matches, or a
    redirect is raised. *)
Inductive outcome {C : Type} :=
| Activated (component : option C) (params : Params)
| NoLeftoversInUrl
| NoMatch
| AbsoluteRedirect (url : string)
| CannotRedirect.
Arguments outcome : clear implicits.

Section Recognize.
Context {C : Type}.

(** [defaultUrlMatcher]: the positional parameters and the segments that
    are left. *)
Fixpoint defaultUrlMatcher (parts segments : list string) (posParams : Params)
  : option (Params * list string) :=
  match parts, segments with
  | [], rest => Some (posParams, rest)
  | _ :: _, [] => None
  | part :: parts', segment :: segments' =>
      match part with
      | String ":" name =>
          defaultUrlMatcher parts' segments' (<[name := segment]> posParams)
      | _ =>
          if String.eqb part segment
          then defaultUrlMatcher parts' segments' posParams
          else None
      end
  end.

Definition match_route (route : Route C) (segments : list string)
  : option (Params * list string) :=
  if String.eqb (path route) "**" then Some (∅, [])
  else if String.eqb (path route) "" then
    match pathMatch route, segments with
    | full, _ :: _ => None
    | _, _ => Some (∅, segments)
    end
  else
    match defaultUrlMatcher (split "/" (path route)) segments ∅ with
    | Some (posParams, remaining) =>
        match pathMatch route, remaining with
        | full, _ :: _ => None
        | _, _ => Some (posParams, remaining)
        end
    | None => None
    end.

(** A route without children is activated only when it leaves no segment. *)
Definition matchSegmentAgainstRoute (route : Route C) (segments : list string)
  : outcome C :=
  match match_route route segments with
  | Some (params, []) => Activated (component route) params
  | Some (_, _ :: _) => NoMatch
  | None => NoMatch
  end.

(** The routes are tried in their order; [NoMatch] goes on to the next. *)
Fixpoint first_match (against : Route C -> outcome C) (routes : list (Route C))
    (segments : list string) : outcome C :=
  match routes with
  | [] => match segments with [] => NoLeftoversInUrl | _ :: _ => NoMatch end
  | route :: routes' =>
      match against route with
      | NoMatch => first_match against routes' segments
      | o => o
      end
  end.

(** [processSegment] with [allowRedirects] false, as it runs on the
    segments a relative redirect has written. *)
Definition processSegment_redirected (routes : list (Route C))
    (segments : list string) : outcome C :=
  first_match
    (fun route =>
       match redirectTo route with
       | None => matchSegmentAgainstRoute route segments
       | Some _ => NoMatch
       end)
    routes segments.

(** The segments of a relative redirect: a part [:name] stands for the
    parameter of that name. *)
Fixpoint applyRedirectCommands (parts : list string) (posParams : Params)
  : option (list string) :=
  match parts with
  | [] => Some []
  | part :: parts' =>
      match (match part with
             | String ":" name => posParams !! name
             | _ => Some part
             end), applyRedirectCommands parts' posParams with
      | Some segment, Some segments => Some (segment :: segments)
      | _, _ => None
      end
  end.

Definition expandSegmentAgainstRouteUsingRedirect (routes : list (Route C))
    (route : Route C) (target : string) (segments : list string) : outcome C :=
  match match_route route segments with
  | None => NoMatch
  | Some (posParams, remaining) =>
      match target with
      | String "/" _ => AbsoluteRedirect target
      | _ =>
          match applyRedirectCommands (filter nonempty (split "/" target))
                  posParams with
          | Some newSegments =>
              processSegment_redirected routes (newSegments ++ remaining)
          | None => CannotRedirect
          end
      end
  end.

Definition processSegment (routes : list (Route C)) (segments : list string)
  : outcome C :=
  first_match
    (fun route =>
       match redirectTo route with
       | None => matchSegmentAgainstRoute route segments
       | Some target =>
           expandSegmentAgainstRouteUsingRedirect routes route target segments
       end)
    routes segments.

End Recognize.

Section Navigate.
Context `{Host} {C : Type}.

(** The segments [router.navigate(commands)] asks for, from the root: the
    first command is split at its slashes, every other command is one
    segment, the text of its value. [None]: the commands are refused
    (a command is null or undefined) or step upwards with [..], which no
    command of the components does. *)
Definition first_command (parts : list string) : option (list string) :=
  let parts := match parts with
               | "." :: parts' => parts'
               | _ => parts
               end in
  if existsb (String.eqb "..") parts then None
  else Some (filter nonempty parts).

Fixpoint later_commands (commands : list value) : option (list string) :=
  match commands with
  | [] => Some []
  | VUndefined :: _ | VNull :: _ => None
  | command :: commands' =>
      match later_commands commands' with
      | Some segments => Some (ToString command :: segments)
      | None => None
      end
  end.

Definition computeNavigation (commands : list value) : option (list string) :=
  match commands with
  | VStr s :: commands' =>
      match first_command (split "/" s), later_commands commands' with
      | Some a, Some b => Some (a ++ b)
      | _, _ => None
      end
  | _ => later_commands commands
  end.

(** The route [router.navigate(commands)] activates. *)
Definition navigate (routes : list (Route C)) (commands : list value)
  : option (outcome C) :=
  match computeNavigation commands with
  | Some segments => Some (processSegment routes segments)
  | None => None
  end.

End Navigate.

(** [paramMap.get(name)] *)
Definition paramMap_get (params : Params) (name : string) : value :=
  match params !! name with
  | Some s => VStr s
  | None => VNull
  end.

End Router.

(** ** app.routes.ts *)

Module AppRoutes.
Import Router.

Inductive Component :=
| LoginComponent
| PromptLibraryComponent
| AddPromptComponent
| PromptDetailComponent.

Definition routes : list (Route Component) := [
  {| path := ""; component := None; redirectTo := Some "dashboard";
     pathMatch := full |};
  {| path := "login"; component := Some LoginComponent; redirectTo := None;
     pathMatch := prefix |};
  {| path := "dashboard"; component := Some PromptLibraryComponent;
     redirectTo := None; pathMatch := prefix |};
  {| path := "prompts"; component := Some PromptLibraryComponent;
     redirectTo := None; pathMatch := prefix |};
  {| path := "add"; component := Some AddPromptComponent; redirectTo := None;
     pathMatch := prefix |};
  {| path := "prompts/:id"; component := Some PromptDetailComponent;
     redirectTo := None; pathMatch := prefix |};
  {| path := "**"; component := None; redirectTo := Some "dashboard";
     pathMatch := prefix |}
].

End AppRoutes.

(** ** The answers of a request, one after the other *)

Module Subscription.
Import JS Browser.

Section Subscription.
Context `{Host}.


End Subscription.
End Subscription.

(* ===================================================================== *)
(** * Facts about the run time *)
(* ===================================================================== *)

Module JSFacts.
Import JS Spec.

(** ** Rounding *)

(** [rne_div n d] is within half a unit of [n / d]. *)
Lemma rne_div_bound (n d : Z) :
  0 < d -> - d <= 2 * (rne_div n d * d - n) <= d.
Proof.
  intros Hd. unfold rne_div.
  pose proof (Z.div_mod n d ltac:(lia)) as Hdm.
  pose proof (Z.mod_pos_bound n d Hd) as Hr.
  destruct (Z.ltb_spec (2 * (n mod d)) d);
    [| destruct (Z.ltb_spec d (2 * (n mod d)));
       [| destruct (Z.even (n / d))]]; nia.
Qed.

Lemma scale_num_neg (a k : Z) : 0 < k -> scale_num a (- k) = a * 2 ^ k.
Proof.
  intros Hk. unfold scale_num.
  destruct (Z.ltb_spec (- k) 0); [| lia]. now rewrite Z.opp_involutive.
Qed.

Lemma scale_den_neg (b k : Z) : 0 < k -> scale_den b (- k) = b.
Proof.
  intros Hk. unfold scale_den. destruct (Z.ltb_spec (- k) 0); [reflexivity | lia].
Qed.

(** The quotient of two positive integers, when it is below [2^52 * b]:
    the exponent is negative, the scaled quotient is normalised and the
    mantissa is within half a unit of it. *)
Lemma fl_div_pos_spec (a b : Z) :
  0 < a -> 0 < b -> Z.log2 a < Z.log2 b + 52 ->
  exists m k,
    fl_div_pos a b = Dy m (- k) /\ 0 < k /\
    2 ^ 52 * b <= a * 2 ^ k < 2 ^ 53 * b /\
    - b <= 2 * (m * b - a * 2 ^ k) <= b.
Proof.
  intros Ha Hb Hlog. unfold fl_div_pos.
  set (la := Z.log2 a) in *. set (lb := Z.log2 b) in *.
  set (k0 := lb + 52 - la).
  assert (Hk0 : 0 < k0) by (unfold k0; lia).
  replace (la - lb - 52) with (- k0) by (unfold k0; lia).
  assert (Hla : 0 <= la) by apply Z.log2_nonneg.
  assert (Hlb : 0 <= lb) by apply Z.log2_nonneg.
  destruct (Z.log2_spec a Ha) as [Ha1 Ha2]. fold la in Ha1, Ha2.
  destruct (Z.log2_spec b Hb) as [Hb1 Hb2]. fold lb in Hb1, Hb2.
  replace (Z.succ la) with (la + 1) in Ha2 by lia.
  replace (Z.succ lb) with (lb + 1) in Hb2 by lia.
  rewrite Z.pow_add_r in Ha2, Hb2 by lia. change (2 ^ 1) with 2 in *.
  assert (Hpow : 2 ^ la * 2 ^ k0 = 2 ^ 52 * 2 ^ lb).
  { rewrite <- !Z.pow_add_r by lia. f_equal. unfold k0. lia. }
  assert (HK : 0 < 2 ^ k0) by (apply Z.pow_pos_nonneg; lia).
  assert (HA : 0 < 2 ^ la) by (apply Z.pow_pos_nonneg; lia).
  assert (HB : 0 < 2 ^ lb) by (apply Z.pow_pos_nonneg; lia).
  assert (Hlo : 2 ^ 52 * 2 ^ lb <= a * 2 ^ k0) by nia.
  assert (Hhi : a * 2 ^ k0 < 2 ^ 53 * 2 ^ lb).
  { change (2 ^ 53) with (2 * 2 ^ 52). nia. }
  rewrite !(scale_num_neg a k0), !(scale_den_neg b k0) by lia.
  destruct (Z.ltb_spec (a * 2 ^ k0) (2 ^ 52 * b)) as [Hlt | Hge].
  - replace (- k0 - 1) with (- (k0 + 1)) by lia.
    rewrite scale_num_neg, scale_den_neg by lia.
    exists (rne_div (a * 2 ^ (k0 + 1)) b), (k0 + 1).
    split; [reflexivity |]. split; [lia |].
    split; [| apply rne_div_bound; lia].
    rewrite Z.pow_add_r by lia. change (2 ^ 1) with 2.
    change (2 ^ 53) with (2 * 2 ^ 52). nia.
  - rewrite scale_num_neg, scale_den_neg by lia.
    exists (rne_div (a * 2 ^ k0) b), k0.
    split; [reflexivity |]. split; [lia |].
    split; [| apply rne_div_bound; lia].
    nia.
Qed.

(** An integer below [2^53] in magnitude is a double. *)
Lemma fl_int_small (z : Z) : Z.abs z < 2 ^ 53 -> fl_int z = z.
Proof.
  intros Hz. unfold fl_int.
  destruct (Z.leb_spec (Z.log2 (Z.abs z) - 52) 0) as [| Hgt]; [reflexivity |].
  exfalso.
  assert (Hpos : 0 < Z.abs z).
  { destruct (Z.eq_dec (Z.abs z) 0) as [E |]; [| lia].
    rewrite E in Hgt. cbn in Hgt. lia. }
  destruct (Z.log2_spec _ Hpos) as [Hlo _].
  assert (2 ^ 53 <= 2 ^ Z.log2 (Z.abs z)) by (apply Z.pow_le_mono_r; lia).
  lia.
Qed.

(** ** Flooring a quotient *)

(** A mantissa within half a unit of [a * P / b], with [b < 2 * P], has
    the floor of [a / b]. *)
Lemma floor_from_bound (m a b P : Z) :
  0 < b -> 0 < P -> b < 2 * P ->
  - b <= 2 * (m * b - a * P) <= b ->
  m / P = a / b.
Proof.
  intros Hb HP HbP Hm.
  pose proof (Z.div_mod a b ltac:(lia)) as Hdm.
  pose proof (Z.mod_pos_bound a b Hb) as Hr.
  set (q := a / b) in *. set (r := a mod b) in *.
  symmetry. apply Z.div_unique_pos with (r := m - q * P); [| lia].
  split; nia.
Qed.

(** [Math.floor(a / b)] is the floor of the exact quotient as long as [a]
    is below [2^53] in magnitude. *)
Lemma floor_fl_div (a b : Z) :
  2 <= b -> Z.abs a < 2 ^ 53 ->
  Math_floor (Fin (fl_div a b)) = Int (a / b).
Proof.
  intros Hb Ha. unfold fl_div.
  destruct (Z.eqb_spec a 0) as [-> | Hne].
  { cbn. now rewrite Z.div_0_l by lia. }
  assert (Hlog : forall x, 0 < x -> x < 2 ^ 53 -> Z.log2 x < Z.log2 b + 52).
  { intros x Hx Hx53.
    assert (Z.log2 x < 53) by (apply Z.log2_lt_pow2; lia).
    assert (Z.log2 2 <= Z.log2 b) by (apply Z.log2_le_mono; lia).
    change (Z.log2 2) with 1 in *. lia. }
  assert (Hfloor : forall x k, 0 < x -> x < 2 ^ 53 -> 0 < k ->
            2 ^ 52 * b <= x * 2 ^ k -> b < 2 * 2 ^ k).
  { intros x k Hx Hx53 Hk Hn.
    assert (0 < 2 ^ k) by (apply Z.pow_pos_nonneg; lia).
    change (2 ^ 53) with (2 * 2 ^ 52) in Hx53. nia. }
  destruct (Z.ltb_spec a 0) as [Hneg | Hpos].
  - destruct (fl_div_pos_spec (- a) b) as (m & k & -> & Hk & Hn & Hm);
      [lia | lia | apply Hlog; lia |].
    cbn [mant expo Math_floor].
    destruct (Z.ltb_spec (- k) 0); [| lia].
    rewrite Z.opp_involutive. f_equal.
    apply floor_from_bound; [lia | apply Z.pow_pos_nonneg; lia | | lia].
    apply (Hfloor (- a) k); lia.
  - destruct (fl_div_pos_spec a b) as (m & k & -> & Hk & Hn & Hm);
      [lia | lia | apply Hlog; lia |].
    cbn [Math_floor].
    destruct (Z.ltb_spec (- k) 0); [| lia].
    rewrite Z.opp_involutive. f_equal.
    apply floor_from_bound; [lia | apply Z.pow_pos_nonneg; lia | | lia].
    apply (Hfloor a k); lia.
Qed.

(** ** Rounding a quotient by 1000 to tenths *)

Lemma nearest_tenths_bound (m k v : Z) :
  0 < k -> 500 < 2 ^ k ->
  - 1000 <= 2 * (m * 1000 - v * 2 ^ k) <= 1000 ->
  - 50 <= 100 * nearest_tenths (Dy m (- k)) - v <= 50.
Proof.
  intros Hk HP Hm. unfold nearest_tenths.
  destruct (Z.ltb_spec (- k) 0); [| lia].
  rewrite Z.opp_involutive, Z.pow_add_r by lia. change (2 ^ 1) with 2.
  set (P := 2 ^ k) in *.
  pose proof (Z.div_mod (20 * m + P) (P * 2) ltac:(lia)) as Hdm.
  pose proof (Z.mod_pos_bound (20 * m + P) (P * 2) ltac:(lia)) as Hr.
  set (n := (20 * m + P) / (P * 2)) in *. nia.
Qed.

(** The double nearest to [v / 1000] for [1000 <= v < 2^53], and the
    tenths [toFixed(1)] rounds it to. *)
Lemma fl_div_1000 (v : Z) :
  1000 <= v < 2 ^ 53 ->
  exists m k,
    fl_div v 1000 = Dy m (- k) /\ 0 < k /\ 0 <= m <= 2 ^ 53 /\
    - 50 <= 100 * nearest_tenths (Dy m (- k)) - v <= 50.
Proof.
  intros Hv. unfold fl_div.
  destruct (Z.eqb_spec v 0); [lia |]. destruct (Z.ltb_spec v 0); [lia |].
  destruct (fl_div_pos_spec v 1000) as (m & k & E & Hk & Hn & Hm); [lia | lia | |].
  { assert (Z.log2 v < 53) by (apply Z.log2_lt_pow2; lia).
    change (Z.log2 1000) with 9. lia. }
  exists m, k. split; [exact E |]. split; [exact Hk |].
  assert (HP : 0 < 2 ^ k) by (apply Z.pow_pos_nonneg; lia).
  split; [lia |].
  apply nearest_tenths_bound; [lia | | lia].
  change (2 ^ 53) with (2 * 2 ^ 52) in Hv. nia.
Qed.

(** ** Text *)

Lemma append_cons (c : ascii) (a b : string) :
  String c a +:+ b = String c (a +:+ b).
Proof. reflexivity. Qed.

Lemma length_append (a b : string) :
  String.length (a +:+ b) = (String.length a + String.length b)%nat.
Proof.
  induction a as [| c a IH]; [reflexivity |].
  rewrite append_cons. cbn [String.length]. now rewrite IH.
Qed.

Lemma String_take_append (a b : string) :
  String_take (String.length a) (a +:+ b) = a.
Proof.
  induction a as [| c a IH]; [now destruct b |].
  rewrite append_cons. cbn [String.length String_take]. now rewrite IH.
Qed.

Lemma String_drop_append (a b : string) :
  String_drop (String.length a) (a +:+ b) = b.
Proof.
  induction a as [| c a IH]; [reflexivity |].
  rewrite append_cons. cbn [String.length String_drop]. exact IH.
Qed.

Lemma append_assoc (a b c : string) : (a +:+ b) +:+ c = a +:+ b +:+ c.
Proof.
  induction a as [| x a IH]; [reflexivity |].
  rewrite !append_cons. now rewrite IH.
Qed.

Lemma prefix_true (t s : string) :
  String.prefix t s = true <-> exists post, s = t +:+ post.
Proof.
  revert s. induction t as [| c t IH]; intros s.
  - split; [intros _; now exists s | intros _; now destruct s].
  - destruct s as [| c' s]; cbn [String.prefix].
    { split; [discriminate | intros [post E]; discriminate]. }
    destruct (Ascii.ascii_dec c c') as [-> | Hne].
    + rewrite IH. split; intros [post E]; exists post.
      * rewrite append_cons. now rewrite E.
      * rewrite append_cons in E. now inversion E.
    + split; [discriminate |].
      intros [post E]. rewrite append_cons in E. inversion E. congruence.
Qed.

(** [includes] decides occurrence. *)
Lemma includes_true (s t : string) : includes s t = true <-> occurs_in t s.
Proof.
  unfold occurs_in. induction s as [| c s IH]; cbn [includes].
  - rewrite orb_false_r, prefix_true. split.
    + intros [post E]. now exists "", post.
    + intros (pre & post & E). destruct pre; [now exists post | discriminate].
  - rewrite orb_true_iff, prefix_true, IH. split.
    + intros [[post E] | (pre & post & E)].
      * now exists "", post.
      * exists (String c pre), post. rewrite append_cons. now rewrite E.
    + intros (pre & post & E). destruct pre as [| c' pre].
      * left. now exists post.
      * right. exists pre, post. rewrite append_cons in E. now inversion E.
Qed.

(** ** Decimal digits *)

Lemma decimal_fuel_enough (f f' : nat) (n : Z) :
  0 <= n < 10 ^ Z.of_nat (S f) -> n < 10 ^ Z.of_nat (S f') ->
  decimal_fuel (S f) n = decimal_fuel (S f') n.
Proof.
  revert f' n. induction f as [| f IH]; intros f' n Hn Hn'.
  - change (10 ^ Z.of_nat 1) with 10 in Hn. cbn [decimal_fuel].
    destruct (Z.ltb_spec n 10); [reflexivity | lia].
  - cbn [decimal_fuel]. destruct (Z.ltb_spec n 10) as [| H10]; [reflexivity |].
    destruct f' as [| f'].
    { change (10 ^ Z.of_nat 1) with 10 in Hn'. lia. }
    f_equal. rewrite Nat2Z.inj_succ, Z.pow_succ_r in Hn, Hn' by lia.
    apply IH.
    + split; [apply Z.div_pos; lia | apply Z.div_lt_upper_bound; lia].
    + apply Z.div_lt_upper_bound; lia.
Qed.

Lemma decimal_fuel_bound (n : Z) :
  0 <= n -> n < 10 ^ Z.of_nat (S (Z.to_nat (Z.log2 n))).
Proof.
  intros Hn. destruct (Z.eq_dec n 0) as [-> | Hne]; [reflexivity |].
  destruct (Z.log2_spec n ltac:(lia)) as [_ Hhi].
  pose proof (Z.log2_nonneg n).
  rewrite Nat2Z.inj_succ, Z2Nat.id by lia.
  eapply Z.lt_le_trans; [exact Hhi |].
  apply Z.pow_le_mono_l. lia.
Qed.

(** The last digit of a number of two digits or more. *)
Lemma decimal_step (n : Z) :
  10 <= n -> decimal n = decimal (n / 10) +:+ String (digit (n mod 10)) "".
Proof.
  intros Hn. unfold decimal at 1. cbn [decimal_fuel].
  destruct (Z.ltb_spec n 10); [lia |]. f_equal.
  assert (H0 : 0 <= n / 10) by (apply Z.div_pos; lia).
  pose proof (decimal_fuel_bound n ltac:(lia)) as Hb.
  pose proof (decimal_fuel_bound (n / 10) H0) as Hb'.
  destruct (Z.to_nat (Z.log2 n)) as [| f] eqn:Ef.
  { change (10 ^ Z.of_nat 1) with 10 in Hb. lia. }
  unfold decimal. apply decimal_fuel_enough; [| exact Hb'].
  split; [exact H0 |].
  rewrite Nat2Z.inj_succ, Z.pow_succ_r in Hb by lia.
  apply Z.div_lt_upper_bound; lia.
Qed.

Lemma decimal_digit (d : Z) : d < 10 -> decimal d = String (digit d) "".
Proof.
  intros Hd. unfold decimal. cbn [decimal_fuel].
  destruct (Z.ltb_spec d 10); [reflexivity | lia].
Qed.

Lemma decimal_nonempty (n : Z) : (1 <= String.length (decimal n))%nat.
Proof.
  unfold decimal. cbn [decimal_fuel]. destruct (n <? 10); [simpl; lia |].
  rewrite length_append. simpl. lia.
Qed.

(** ** The digits of an integer *)

(** An integer from [2^53] on is rounded to one from [2^53] on. *)
Lemma fl_int_large (c : Z) : 2 ^ 53 <= c -> 2 ^ 53 <= fl_int c.
Proof.
  intros Hc. unfold fl_int. rewrite Z.abs_eq by lia.
  assert (Hlog : 53 <= Z.log2 c) by (apply Z.log2_le_pow2; lia).
  destruct (Z.leb_spec (Z.log2 c - 52) 0); [lia |].
  set (e := Z.log2 c - 52) in *.
  assert (Hsgn : Z.sgn c = 1) by (apply Z.sgn_pos; lia).
  rewrite Hsgn, Z.mul_1_l.
  assert (Hd : 0 < 2 ^ e) by (apply Z.pow_pos_nonneg; lia).
  destruct (Z.log2_spec c ltac:(lia)) as [Hlo _].
  replace (Z.log2 c) with (52 + e) in Hlo by (unfold e; lia).
  rewrite Z.pow_add_r in Hlo by lia.
  pose proof (rne_div_bound c (2 ^ e) Hd) as Hb.
  assert (H52 : 2 ^ 52 <= rne_div c (2 ^ e)).
  { destruct (Z_lt_le_dec (rne_div c (2 ^ e)) (2 ^ 52)) as [Hlt |]; [| assumption].
    exfalso.
    assert (rne_div c (2 ^ e) * 2 ^ e <= (2 ^ 52 - 1) * 2 ^ e) by nia.
    assert (2 <= 2 ^ e).
    { change 2 with (2 ^ 1) at 1. apply Z.pow_le_mono_r; lia. }
    nia. }
  assert (2 ^ 53 <= 2 ^ 52 * 2 ^ e).
  { assert (2 <= 2 ^ e).
    { change 2 with (2 ^ 1) at 1. apply Z.pow_le_mono_r; lia. }
    change (2 ^ 53) with (2 ^ 52 * 2). nia. }
  nia.
Qed.

(** Below [2^53] only the integer itself reads back as it. *)
Lemma fl_int_reads_back_small (c z : Z) :
  0 <= c -> Z.abs z < 2 ^ 53 -> fl_int c = z -> c = z.
Proof.
  intros Hc Hz E.
  destruct (Z_lt_le_dec c (2 ^ 53)) as [Hlt | Hge].
  - rewrite fl_int_small in E by lia. exact E.
  - pose proof (fl_int_large c Hge). lia.
Qed.

(** Digits followed by zeros are the digits of a multiple of a power of
    ten. *)
Lemma decimal_zeros (j : nat) (s : Z) :
  0 < s -> decimal s +:+ zeros j = decimal (s * 10 ^ Z.of_nat j).
Proof.
  revert s. induction j as [| j IH]; intros s Hs.
  - cbn [zeros]. rewrite Z.mul_1_r.
    generalize (decimal s). intros t. induction t as [| c t IHt]; [reflexivity |].
    rewrite append_cons. now rewrite IHt.
  - cbn [zeros].
    replace (String "0" (zeros j)) with (String "0" "" +:+ zeros j) by reflexivity.
    rewrite <- append_assoc.
    assert (E : decimal s +:+ String "0" "" = decimal (s * 10)).
    { rewrite (decimal_step (s * 10)) by lia.
      rewrite Z.div_mul by lia. rewrite Z.mod_mul by lia. reflexivity. }
    rewrite E, IH by lia. f_equal.
    rewrite Nat2Z.inj_succ, Z.pow_succ_r by lia. ring.
Qed.

(** What [shortest_digits] returns for a double reads back as it. *)
Lemma shortest_digits_reads_back (fuel : nat) (k n z : Z) :
  0 < z -> representable z -> k + Z.of_nat fuel = n + 1 ->
  let '(s, k') := shortest_digits fuel k n z in
  0 < s /\ k' <= n /\ fl_int (s * 10 ^ (n - k')) = z.
Proof.
  intros Hz Hr. revert k. induction fuel as [| f IH]; intros k Hk.
  - cbn [shortest_digits]. replace (n - n) with 0 by lia.
    rewrite Z.mul_1_r. split; [lia |]. split; [lia | exact Hr].
  - cbn [shortest_digits]. cbv zeta.
    set (p := 10 ^ (n - k)).
    assert (Hp : 0 < p) by (apply Z.pow_pos_nonneg; lia).
    assert (Hlo : 0 <= z / p) by (apply Z.div_pos; lia).
    assert (Hvalid : forall s, 0 <= s ->
              (10 ^ (k - 1) <=? s) && (s <? 10 ^ k) && (fl_int (s * p) =? z) = true ->
              0 < s /\ k <= n /\ fl_int (s * 10 ^ (n - k)) = z).
    { intros s Hs E. apply andb_true_iff in E. destruct E as [_ E].
      apply Z.eqb_eq in E. fold p. split; [| split; [lia | exact E]].
      destruct (Z.eq_dec s 0) as [-> |]; [| lia].
      rewrite Z.mul_0_l in E. change (fl_int 0) with 0 in E. lia. }
    pose proof (Hvalid (z / p) Hlo) as Vlo.
    pose proof (Hvalid (z / p + 1) ltac:(lia)) as Vhi.
    destruct (2 * (z - z / p * p) <=? p); cbv beta iota;
      destruct ((10 ^ (k - 1) <=? z / p) && (z / p <? 10 ^ k) &&
                (fl_int (z / p * p) =? z));
      destruct ((10 ^ (k - 1) <=? z / p + 1) && (z / p + 1 <? 10 ^ k) &&
                (fl_int ((z / p + 1) * p) =? z));
      try (apply Vlo; reflexivity); try (apply Vhi; reflexivity);
      apply (IH (k + 1)); lia.
Qed.

(** The text of an integer double below [10^21] in size: its sign, and
    the digits of an integer that reads back as it. *)
Lemma Number_toString_reads_back `{Host} (z : Z) :
  z <> 0 -> Z.abs z < 10 ^ 21 -> representable (Z.abs z) ->
  exists c, 0 < c /\ fl_int c = Z.abs z /\
    Number_toString (Int z) = (if z <? 0 then "-" else "") +:+ decimal c.
Proof.
  intros Hz Hsmall Hr. unfold Number_toString.
  destruct (Z.eqb_spec z 0); [lia |].
  destruct (Z.ltb_spec (Z.abs z) (10 ^ 21)); [| lia].
  cbv zeta. set (len := Z.of_nat (String.length (decimal (Z.abs z)))).
  pose proof (shortest_digits_reads_back (Z.to_nat len) 1 len (Z.abs z)
                ltac:(lia) Hr ltac:(lia)) as Hs.
  destruct (shortest_digits (Z.to_nat len) 1 len (Z.abs z)) as [s k].
  destruct Hs as (Hs & Hk & E).
  exists (s * 10 ^ (len - k)). split; [| split; [exact E |]].
  - assert (0 < 10 ^ (len - k)) by (apply Z.pow_pos_nonneg; lia). nia.
  - rewrite decimal_zeros by exact Hs. now rewrite Z2Nat.id by lia.
Qed.

(** An integer below [2^53] in size is printed with all its digits. *)
Lemma Number_toString_small `{Host} (z : Z) :
  Z.abs z < 2 ^ 53 ->
  Number_toString (Int z) = if z <? 0 then "-" +:+ decimal (- z) else decimal z.
Proof.
  intros Hz. destruct (Z.eq_dec z 0) as [-> | Hne]; [reflexivity |].
  assert (H21 : Z.abs z < 10 ^ 21).
  { assert (2 ^ 53 < 10 ^ 21) by reflexivity. lia. }
  assert (Hr : representable (Z.abs z)).
  { unfold representable. apply fl_int_small. now rewrite Z.abs_idemp. }
  destruct (Number_toString_reads_back z Hne H21 Hr) as (c & Hc & E & ->).
  apply fl_int_reads_back_small in E;
    [| lia | now rewrite Z.abs_idemp]. subst c.
  destruct (Z.ltb_spec z 0).
  - now rewrite Z.abs_neq by lia.
  - now rewrite Z.abs_eq by lia.
Qed.

(** The text of an integer below [10^21] in size is never empty, and has
    a minus sign exactly when the integer is negative. *)
Lemma Number_toString_sign `{Host} (z : Z) :
  z <> 0 -> Z.abs z < 10 ^ 21 ->
  exists digits, digits <> "" /\
    Number_toString (Int z) = (if z <? 0 then "-" else "") +:+ digits.
Proof.
  intros Hz Hsmall. unfold Number_toString.
  destruct (Z.eqb_spec z 0); [lia |].
  destruct (Z.ltb_spec (Z.abs z) (10 ^ 21)); [| lia].
  destruct (shortest_digits _ 1 _ (Z.abs z)) as [s k].
  exists (decimal s +:+ zeros (Z.to_nat (Z.of_nat (String.length (decimal (Z.abs z))) - k))).
  split; [| reflexivity].
  pose proof (decimal_nonempty s) as Hd.
  destruct (decimal s); [cbn in Hd; lia | discriminate].
Qed.

(** ** The model against [SpecFloat] *)

(** The quotients by 1000 and by 86400000, and the integers, agree with the
    Standard Library's binary64 on runs of values around the points where
    the rounding matters. *)
Lemma fl_div_as_SpecFloat :
  forallb (Binary64.div_agrees 1000)
    (Binary64.upfrom 2000 1000 1 ++
     Binary64.upfrom 500 (2 ^ 53 - 500) 1 ++
     Binary64.upfrom 500 35184372088832000 4) = true /\
  forallb (Binary64.div_agrees 86400000)
    (Binary64.upfrom 500 (- 86400000 * 3 - 250) 1 ++
     Binary64.upfrom 500 (86400000 * 20000 - 250) 1 ++
     Binary64.upfrom 500 (- (2 ^ 53) + 1) 1) = true /\
  forallb Binary64.int_agrees
    (Binary64.upfrom 500 (2 ^ 53 - 250) 1 ++
     Binary64.upfrom 500 (- (2 ^ 54) - 250) 1) = true.
Proof. repeat split; vm_compute; reflexivity. Qed.

(** [decimal] writes what the Standard Library's printer of integers
    writes, on the integers up to 3000 and around [10^21]. *)
Lemma decimal_as_DecimalString :
  forallb (fun z => String.eqb (decimal z) (NilZero.string_of_int (Z.to_int z)))
    (Binary64.upfrom 3000 0 1 ++ Binary64.upfrom 100 (10 ^ 21 - 50) 1) = true.
Proof. vm_compute. reflexivity. Qed.

End JSFacts.

(* ===================================================================== *)
(** * Elapsed days *)
(* ===================================================================== *)

Module RecencyFacts.
Import JS Spec JSFacts PromptDetailComponent.

Section Recency.
Context `{Host}.

Lemma TimeClip_range (n : number) (t : Z) :
  TimeClip n = Int t -> Z.abs t <= max_time.
Proof.
  destruct n as [| z]; cbn; [discriminate |].
  destruct (Z.ltb_spec max_time (Z.abs z)); [discriminate |].
  intros [= <-]. lia.
Qed.

Lemma getDaysAgo_empty (now : Z) : getDaysAgo now (VStr "") = Int 0.
Proof. reflexivity. Qed.

Lemma getDaysAgo_invalid (now : Z) (s : string) :
  Date_new (VStr s) = NaN -> getDaysAgo now (VStr s) = Int 0.
Proof.
  intros E. unfold getDaysAgo. rewrite E. cbn [isNaN].
  now destruct (negb (ToBoolean (VStr s))).
Qed.

(** On a valid date the rounded subtraction, division and floor of the
    source compute the floor of the exact quotient. *)
Lemma getDaysAgo_valid (now : Z) (s : string) (t : Z) :
  Z.abs now <= max_clock -> s <> "" -> Date_new (VStr s) = Int t ->
  getDaysAgo now (VStr s) = Int ((now - t) / 86400000).
Proof.
  intros Hnow Hs E. unfold getDaysAgo.
  assert (Htruthy : ToBoolean (VStr s) = true).
  { cbn. apply negb_true_iff, String.eqb_neq, Hs. }
  rewrite Htruthy, E. cbn [negb isNaN Number_sub Number_div].
  pose proof (TimeClip_range _ _ E) as Ht.
  assert (Hd : Z.abs (now - t) < 2 ^ 53).
  { unfold max_clock in Hnow. lia. }
  rewrite (fl_int_small _ Hd).
  change (Z.pos (1000 * 60 * 60 * 24)) with 86400000.
  apply floor_fl_div; [lia | exact Hd].
Qed.

(** C6. For every timestamp string and every reading [now] of the clock,
    [getDaysAgo] returns 0 when the string is empty or is not a date, and
    otherwise the floor of the elapsed time divided by 86400 seconds: the
    integer [d] with [d] days [<= now - parsed < d + 1] days. *)
Theorem getDaysAgo_floor_of_elapsed_days (now : Z) (s : string) :
  Z.abs now <= max_clock ->
  (s = "" \/ Date_new (VStr s) = NaN -> getDaysAgo now (VStr s) = Int 0) /\
  (forall t, s <> "" -> Date_new (VStr s) = Int t ->
     exists d, getDaysAgo now (VStr s) = Int d /\
               86400000 * d <= now - t < 86400000 * (d + 1)).
Proof.
  intros Hnow. split.
  - intros [-> | E]; [apply getDaysAgo_empty | now apply getDaysAgo_invalid].
  - intros t Hs E. exists ((now - t) / 86400000).
    split; [now apply getDaysAgo_valid |].
    pose proof (Z.div_mod (now - t) 86400000 ltac:(lia)).
    pose proof (Z.mod_pos_bound (now - t) 86400000 ltac:(lia)). lia.
Qed.

(** C5, as the code has it. [getDaysAgo] is 0 for an empty string and for
    a string that is not a date; for a date it is negative exactly when the
    date is later than [now]. *)
Theorem getDaysAgo_negative_iff_future (now : Z) (s : string) :
  Z.abs now <= max_clock ->
  (s = "" \/ Date_new (VStr s) = NaN -> getDaysAgo now (VStr s) = Int 0) /\
  (forall t, s <> "" -> Date_new (VStr s) = Int t ->
     exists d, getDaysAgo now (VStr s) = Int d /\ (d < 0 <-> now < t)).
Proof.
  intros Hnow. split.
  - intros [-> | E]; [apply getDaysAgo_empty | now apply getDaysAgo_invalid].
  - intros t Hs E. exists ((now - t) / 86400000).
    split; [now apply getDaysAgo_valid |].
    pose proof (Z.div_mod (now - t) 86400000 ltac:(lia)).
    pose proof (Z.mod_pos_bound (now - t) 86400000 ltac:(lia)). lia.
Qed.

End Recency.

(** A date of 2100 seen from 1 January 2026: 27028 days in the future. *)
Lemma getDaysAgo_of_a_future_date :
  @getDaysAgo AsciiHost.host 1767225600000 (VStr "2100-01-01T00:00:00.000Z")
  = Int (- 27028).
Proof. vm_compute. reflexivity. Qed.

Lemma getDaysAgo_floor_witness :
  Z.abs 1767225600000 <= max_clock /\
  exists d, @getDaysAgo AsciiHost.host 1767225600000
              (VStr "2025-12-25T12:00:00.000Z") = Int d /\
            86400000 * d <= 1767225600000 - 1766664000000
                         < 86400000 * (d + 1).
Proof.
  assert (Hnow : Z.abs 1767225600000 <= max_clock) by (vm_compute; discriminate).
  split; [exact Hnow |].
  apply (getDaysAgo_floor_of_elapsed_days (H := AsciiHost.host)
           1767225600000 "2025-12-25T12:00:00.000Z" Hnow);
    [discriminate | vm_compute; reflexivity].
Defined.

Lemma getDaysAgo_negative_witness :
  Z.abs 1767225600000 <= max_clock /\
  exists d, @getDaysAgo AsciiHost.host 1767225600000
              (VStr "2100-01-01T00:00:00.000Z") = Int d /\
            (d < 0 <-> 1767225600000 < 4102444800000).
Proof.
  assert (Hnow : Z.abs 1767225600000 <= max_clock) by (vm_compute; discriminate).
  split; [exact Hnow |].
  apply (getDaysAgo_negative_iff_future (H := AsciiHost.host)
           1767225600000 "2100-01-01T00:00:00.000Z" Hnow);
    [discriminate | vm_compute; reflexivity].
Defined.

End RecencyFacts.

(* ===================================================================== *)
(** * View counts *)
(* ===================================================================== *)

Module FormatFacts.
Import JS Spec JSFacts.

Section Format.
Context `{Host}.

(** The two components carry the same function. *)
Lemma formatViews_same (views : value) :
  PromptLibraryComponent.formatViews views = PromptDetailComponent.formatViews views.
Proof. reflexivity. Qed.

(** [toFixed(1)] of a double in [[1, 10^21)]: the tenths, a point before
    the last digit. *)
Lemma Number_toFixed1_tenths (m k : Z) :
  0 < k -> 0 <= m <= 2 ^ 53 -> 10 <= nearest_tenths (Dy m (- k)) ->
  Number_toFixed1 (Fin (Dy m (- k))) =
    decimal (nearest_tenths (Dy m (- k)) / 10) +:+ "." +:+
    decimal (nearest_tenths (Dy m (- k)) mod 10).
Proof.
  intros Hk Hm Hn. unfold Number_toFixed1, dyadic_abs.
  cbn [mant expo]. rewrite Z.abs_eq by lia.
  destruct (Z.ltb_spec m 0); [lia |].
  assert (Hsmall : dyadic_huge (Dy m (- k)) = false).
  { unfold dyadic_huge. destruct (Z.ltb_spec (- k) 0); [| lia].
    apply Z.leb_gt. rewrite Z.opp_involutive.
    assert (0 < 2 ^ k) by (apply Z.pow_pos_nonneg; lia).
    assert (2 ^ 53 < 10 ^ 21) by reflexivity. nia. }
  rewrite Hsmall.
  set (n := nearest_tenths (Dy m (- k))) in *.
  destruct (Z.eqb_spec n 0); [lia |].
  rewrite (decimal_step n Hn), length_append.
  pose proof (decimal_nonempty (n / 10)) as Hlen.
  cbn [String.length].
  destruct (Nat.leb_spec (String.length (decimal (n / 10)) + 1) 1); [lia |].
  replace (String.length (decimal (n / 10)) + 1 - 1)%nat
    with (String.length (decimal (n / 10))) by lia.
  rewrite String_take_append, String_drop_append.
  rewrite (decimal_digit (n mod 10))
    by (pose proof (Z.mod_pos_bound n 10 ltac:(lia)); lia).
  reflexivity.
Qed.

Lemma formatViews_thousands (v : Z) :
  1000 <= v < 2 ^ 53 ->
  exists n, - 50 <= 100 * n - v <= 50 /\
    PromptLibraryComponent.formatViews (VNum (Int v)) =
      Ok (decimal (n / 10) +:+ "." +:+ decimal (n mod 10) +:+ "k").
Proof.
  intros Hv. destruct (fl_div_1000 v Hv) as (m & k & E & Hk & Hm & Hn).
  exists (nearest_tenths (Dy m (- k))). split; [exact Hn |].
  unfold PromptLibraryComponent.formatViews, js_ge. cbn [ToNumber Number_div].
  destruct (Z.leb_spec 1000 v); [| lia].
  change (Z.pos 1000) with 1000. rewrite E.
  rewrite Number_toFixed1_tenths by lia.
  now rewrite !append_assoc.
Qed.

Lemma formatViews_below_thousand (v : Z) :
  - 2 ^ 53 < v < 1000 ->
  PromptLibraryComponent.formatViews (VNum (Int v)) =
    Ok (if v <? 0 then "-" +:+ decimal (- v) else decimal v).
Proof.
  intros Hv. unfold PromptLibraryComponent.formatViews, js_ge.
  cbn [ToNumber toString].
  destruct (Z.leb_spec 1000 v); [lia |].
  now rewrite Number_toString_small by lia.
Qed.

(** [formatViews] of a negative integer above [-10^21]: a minus sign and
    the digits [Number::toString] prints. *)
Lemma formatViews_negative (v : Z) :
  - 10 ^ 21 < v < 0 ->
  exists digits, digits <> "" /\
    PromptLibraryComponent.formatViews (VNum (Int v)) = Ok ("-" +:+ digits) /\
    Number_toString (Int v) = "-" +:+ digits.
Proof.
  intros Hv.
  destruct (Number_toString_sign v ltac:(lia) ltac:(lia)) as (digits & Hd & E).
  destruct (Z.ltb_spec v 0); [| lia].
  exists digits. split; [exact Hd |]. split; [| exact E].
  unfold PromptLibraryComponent.formatViews, js_ge. cbn [ToNumber toString].
  destruct (Z.leb_spec 1000 v); [lia |]. now rewrite E.
Qed.

(** C9, as the code has it. For every integer [1000 <= views <= 2^53 - 1]
    [formatViews] returns one of the values with one decimal nearest to
    [views / 1000], followed by "k": its tenths [n] are within 50 of
    [views]. For [0 <= views < 1000] it returns the decimal text of
    [views]. The five values of the specification are as it gives them. *)
Theorem formatViews_one_decimal (views : Z) :
  (0 <= views < 1000 ->
     PromptLibraryComponent.formatViews (VNum (Int views)) = Ok (decimal views) /\
     PromptDetailComponent.formatViews (VNum (Int views)) = Ok (decimal views)) /\
  (1000 <= views <= 2 ^ 53 - 1 ->
     exists n, - 50 <= 100 * n - views <= 50 /\
       PromptLibraryComponent.formatViews (VNum (Int views)) =
         Ok (decimal (n / 10) +:+ "." +:+ decimal (n mod 10) +:+ "k") /\
       PromptDetailComponent.formatViews (VNum (Int views)) =
         Ok (decimal (n / 10) +:+ "." +:+ decimal (n mod 10) +:+ "k")) /\
  PromptLibraryComponent.formatViews (VNum (Int 0)) = Ok "0" /\
  PromptLibraryComponent.formatViews (VNum (Int 999)) = Ok "999" /\
  PromptLibraryComponent.formatViews (VNum (Int 1000)) = Ok "1.0k" /\
  PromptLibraryComponent.formatViews (VNum (Int 1500)) = Ok "1.5k" /\
  PromptLibraryComponent.formatViews (VNum (Int 12000)) = Ok "12.0k".
Proof.
  split; [| split].
  - intros Hv.
    pose proof (formatViews_below_thousand views ltac:(lia)) as E.
    destruct (Z.ltb_spec views 0); [lia |]. split; exact E.
  - intros Hv. destruct (formatViews_thousands views ltac:(lia)) as (n & Hn & E).
    exists n. repeat split; [lia | lia | exact E | exact E].
  - repeat split; vm_compute; reflexivity.
Qed.

(** C7, as the code has it. [formatViews] has no default: a negative
    integer above [-10^21] is returned as a minus sign followed by digits,
    never as "0": by all its decimal digits when it is above [-2^53], and
    otherwise, when it is a double, by the digits of an integer that reads
    back as it. A missing value, [undefined] or [null], raises a
    [TypeError]; the 0 of a record without [view_count] is the list
    mapping's, set before [formatViews] is called. *)
Theorem formatViews_negative_or_missing (v : Z) :
  - 10 ^ 21 < v < 0 ->
  (exists digits, digits <> "" /\
     PromptLibraryComponent.formatViews (VNum (Int v)) = Ok ("-" +:+ digits) /\
     PromptDetailComponent.formatViews (VNum (Int v)) = Ok ("-" +:+ digits) /\
     (- 2 ^ 53 < v -> digits = decimal (- v)) /\
     (representable (- v) ->
      exists c, 0 < c /\ fl_int c = - v /\ digits = decimal c)) /\
  PromptLibraryComponent.formatViews (VNum (Int v)) <> Ok "0" /\
  PromptLibraryComponent.formatViews VUndefined = Throw TypeError /\
  PromptLibraryComponent.formatViews VNull = Throw TypeError /\
  PromptDetailComponent.formatViews VUndefined = Throw TypeError /\
  PromptDetailComponent.formatViews VNull = Throw TypeError /\
  (forall r : raw, r !! "view_count" = None ->
     PromptLibraryComponent.views (PromptLibraryComponent.toPrompt r)
       = VNum (Int 0) /\
     PromptLibraryComponent.formatViews
       (PromptLibraryComponent.views (PromptLibraryComponent.toPrompt r))
       = Ok "0").
Proof.
  intros Hv.
  destruct (formatViews_negative v Hv) as (digits & Hd & E & Et).
  destruct (Z.ltb_spec v 0) as [Hneg | ]; [| lia].
  assert (Hinj : forall a b : string, "-" +:+ a = "-" +:+ b -> a = b)
    by (intros a b Q; now injection Q).
  split.
  { exists digits. split; [exact Hd |]. split; [exact E |]. split; [exact E |].
    split.
    - intros Hsmall.
      rewrite Number_toString_small in Et by lia.
      destruct (Z.ltb_spec v 0); [| lia].
      symmetry. now apply Hinj.
    - intros Hr. rewrite <- (Z.abs_neq v) in Hr by lia.
      destruct (Number_toString_reads_back v ltac:(lia) ltac:(lia) Hr)
        as (c & Hc & Ec & Etc).
      exists c. split; [exact Hc |]. split; [now rewrite Ec, Z.abs_neq by lia |].
      rewrite Etc in Et. destruct (Z.ltb_spec v 0); [| lia].
      symmetry. now apply Hinj. }
  split; [rewrite E; discriminate |].
  do 4 (split; [reflexivity |]).
  intros r Habs.
  unfold PromptLibraryComponent.toPrompt, get. cbn [PromptLibraryComponent.views].
  rewrite Habs. split; reflexivity.
Qed.

End Format.

Lemma formatViews_negative_or_missing_witness :
  - 10 ^ 21 < - 5 < 0 /\
  @PromptLibraryComponent.formatViews AsciiHost.host (VNum (Int (- 5))) = Ok "-5".
Proof.
  assert (Hv : - 10 ^ 21 < - 5 < 0) by (split; reflexivity).
  split; [exact Hv |].
  destruct (formatViews_negative_or_missing (H := AsciiHost.host) (- 5) Hv)
    as ((digits & _ & E & _ & Hsmall & _) & _).
  rewrite E, (Hsmall eq_refl). reflexivity.
Defined.

(** [formatViews] of a negative count, of a negative count beyond
    [-2^53], whose last digits are not those of the integer, and of a
    missing one. *)
Lemma formatViews_of_minus_five_and_undefined :
  @PromptLibraryComponent.formatViews AsciiHost.host (VNum (Int (- 5))) = Ok "-5" /\
  representable (- 2 ^ 64) /\
  @PromptLibraryComponent.formatViews AsciiHost.host (VNum (Int (- 2 ^ 64)))
    = Ok "-18446744073709552000" /\
  @PromptLibraryComponent.formatViews AsciiHost.host VUndefined = Throw TypeError.
Proof. repeat split; vm_compute; reflexivity. Qed.

(** Where the code and decimal rounding part. 1050 and 1150 are both
    halfway between two tenths and both give "1.1k", and 2550 gives "2.5k":
    the doubles nearest to 1.05, 1.15 and 2.55 lie above, below and below
    them. 35184372088832152 is a double; the double nearest to
    35184372088832.152 is 35184372088832.1484375, so the result has the
    tenths 351843720888321, which are 52 thousandths away where the
    nearest tenths are 48 away. *)
Lemma formatViews_not_decimal_rounding :
  @PromptLibraryComponent.formatViews AsciiHost.host (VNum (Int 1050)) = Ok "1.1k" /\
  @PromptLibraryComponent.formatViews AsciiHost.host (VNum (Int 1150)) = Ok "1.1k" /\
  @PromptLibraryComponent.formatViews AsciiHost.host (VNum (Int 2550)) = Ok "2.5k" /\
  representable 35184372088832152 /\
  @PromptLibraryComponent.formatViews AsciiHost.host (VNum (Int 35184372088832152))
    = Ok "35184372088832.1k" /\
  50 < Z.abs (100 * 351843720888321 - 35184372088832152).
Proof. repeat split; vm_compute; reflexivity. Qed.

End FormatFacts.

(* ===================================================================== *)
(** * Complexity buckets *)
(* ===================================================================== *)

Module ClassifierFacts.
Import JS.

Section Classifier.
Context `{Host}.

Ltac compare_all :=
  repeat match goal with
  | |- context [(?a <=? ?b)%Z] => destruct (Z.leb_spec a b)
  | |- context [(?a =? ?b)%Z] => destruct (Z.eqb_spec a b)
  end.

(** C1. The label of the three-bucket classifier, for every integer level:
    "Simple" on [1, 3], "Moderate" on [4, 7], "Complex" on [8, 10] and
    "Unknown" outside [1, 10]. *)
Theorem getComplexityText_three_buckets (L : Z) :
  (1 <= L <= 3 ->
     PromptLibraryComponent.getComplexityText (VNum (Int L)) = "Simple") /\
  (4 <= L <= 7 ->
     PromptLibraryComponent.getComplexityText (VNum (Int L)) = "Moderate") /\
  (8 <= L <= 10 ->
     PromptLibraryComponent.getComplexityText (VNum (Int L)) = "Complex") /\
  (L < 1 \/ 10 < L ->
     PromptLibraryComponent.getComplexityText (VNum (Int L)) = "Unknown").
Proof.
  unfold PromptLibraryComponent.getComplexityText, js_ge, js_le.
  cbn [ToNumber].
  repeat split; intros HL; compare_all; cbn; solve [reflexivity | lia].
Qed.

(** C8. The two-boundary rule of the detail view and of the add-prompt
    form, for every integer level: simple up to 3, values below 1 included,
    moderate above 3 up to 7, complex above 7, values above 10 included;
    and whatever the value, one of these three and never "Unknown". *)
Theorem two_boundary_rule (L : Z) :
  (L <= 3 ->
     PromptDetailComponent.getComplexityClass (VNum (Int L)) = "simple" /\
     PromptDetailComponent.getComplexityText (VNum (Int L)) = "Simple" /\
     AddPromptComponent.getComplexityClass (VNum (Int L)) = "simple" /\
     AddPromptComponent.getComplexityText (VNum (Int L)) = "Simple") /\
  (3 < L <= 7 ->
     PromptDetailComponent.getComplexityClass (VNum (Int L)) = "moderate" /\
     PromptDetailComponent.getComplexityText (VNum (Int L)) = "Moderate" /\
     AddPromptComponent.getComplexityClass (VNum (Int L)) = "moderate" /\
     AddPromptComponent.getComplexityText (VNum (Int L)) = "Moderate") /\
  (7 < L ->
     PromptDetailComponent.getComplexityClass (VNum (Int L)) = "complex" /\
     PromptDetailComponent.getComplexityText (VNum (Int L)) = "Complex" /\
     AddPromptComponent.getComplexityClass (VNum (Int L)) = "complex" /\
     AddPromptComponent.getComplexityText (VNum (Int L)) = "Complex") /\
  (forall v : value,
     In (PromptDetailComponent.getComplexityClass v) ["simple"; "moderate"; "complex"] /\
     In (PromptDetailComponent.getComplexityText v) ["Simple"; "Moderate"; "Complex"] /\
     In (AddPromptComponent.getComplexityClass v) ["simple"; "moderate"; "complex"] /\
     In (AddPromptComponent.getComplexityText v) ["Simple"; "Moderate"; "Complex"]).
Proof.
  unfold PromptDetailComponent.getComplexityClass,
    PromptDetailComponent.getComplexityText,
    AddPromptComponent.getComplexityClass,
    AddPromptComponent.getComplexityText.
  split; [| split; [| split]].
  1-3: intros HL; unfold js_le; cbn [ToNumber ToBoolean];
       compare_all; cbn; repeat split; lia.
  intros v. destruct (negb (ToBoolean v)), (js_le v 3), (js_le v 7);
    cbn; tauto.
Qed.

End Classifier.
End ClassifierFacts.

(* ===================================================================== *)
(** * From records of the API to view models *)
(* ===================================================================== *)

Module MappingFacts.
Import JS Spec.

Section Mapping.
Context `{Host}.

Lemma get_absent (o : raw) (k : string) : o !! k = None -> get o k = VUndefined.
Proof. intros E. unfold get. now rewrite E. Qed.

(** After [loadPrompts], [this.prompts] holds the mapped records. *)
Lemma loadPrompts_prompts (st : PromptLibraryComponent.state) (data : list raw) :
  let st' := PromptLibraryComponent.loadPrompts_next st data in
  PromptLibraryComponent.read (PromptLibraryComponent.heap st')
    (PromptLibraryComponent.prompts st')
  = map PromptLibraryComponent.toPrompt data.
Proof.
  cbv zeta. unfold PromptLibraryComponent.loadPrompts_next.
  unfold PromptLibraryComponent.alloc, PromptLibraryComponent.read. cbn.
  set (h := PromptLibraryComponent.heap st).
  set (l1 := fresh (dom h)).
  rewrite lookup_insert_eq. cbn.
  set (h1 := <[l1 := _]> h).
  assert (Hne : fresh (dom h1) <> l1).
  { intros E. apply (is_fresh (dom h1)). rewrite E.
    apply elem_of_dom. unfold h1. rewrite lookup_insert_eq. eauto. }
  rewrite lookup_insert_ne by exact Hne.
  unfold h1. now rewrite lookup_insert_eq.
Qed.

(** C3. [loadPrompts] yields one view model per record, at the position of
    the record; its [views] is the record's [view_count] when that is
    truthy and 0 otherwise, and a record without [view_count] has
    [views = 0], which [formatViews] renders as "0". *)
Theorem loadPrompts_order_and_views (st : PromptLibraryComponent.state)
    (data : list raw) :
  let st' := PromptLibraryComponent.loadPrompts_next st data in
  let ps := PromptLibraryComponent.read (PromptLibraryComponent.heap st')
              (PromptLibraryComponent.prompts st') in
  length ps = length data /\
  forall (i : nat) (r : raw), data !! i = Some r ->
    exists p, ps !! i = Some p /\
      p = PromptLibraryComponent.toPrompt r /\
      PromptLibraryComponent.id p = get r "id" /\
      PromptLibraryComponent.views p =
        (if ToBoolean (get r "view_count") then get r "view_count"
         else VNum (Int 0)) /\
      (r !! "view_count" = None ->
         PromptLibraryComponent.views p = VNum (Int 0) /\
         PromptLibraryComponent.formatViews (PromptLibraryComponent.views p)
           = Ok "0").
Proof.
  cbv zeta. rewrite loadPrompts_prompts. split; [apply length_map |].
  intros i r Hi. exists (PromptLibraryComponent.toPrompt r).
  split; [now rewrite list_lookup_fmap, Hi |].
  split; [reflexivity |]. split; [reflexivity |]. split; [reflexivity |].
  intros Habs. cbn [PromptLibraryComponent.views PromptLibraryComponent.toPrompt].
  rewrite (get_absent _ _ Habs). split; reflexivity.
Qed.

(** C10. The detail view copies [view_count] as it is, whatever the
    record holds there: [views] is the value of the property, and
    [undefined] for a record without it, where the list mapping of the same
    record has 0. *)
Theorem ngOnInit_views_verbatim (data : raw) :
  PromptDetailComponent.views (PromptDetailComponent.ngOnInit_next data)
    = get data "view_count" /\
  (forall v, data !! "view_count" = Some v ->
     PromptDetailComponent.views (PromptDetailComponent.ngOnInit_next data) = v) /\
  (data !! "view_count" = None ->
     PromptDetailComponent.views (PromptDetailComponent.ngOnInit_next data)
       = VUndefined /\
     PromptLibraryComponent.views (PromptLibraryComponent.toPrompt data)
       = VNum (Int 0)).
Proof.
  split; [reflexivity |]. split.
  - intros v E. cbn. unfold get. now rewrite E.
  - intros Habs. cbn. rewrite (get_absent _ _ Habs). split; reflexivity.
Qed.

End Mapping.

Lemma ngOnInit_views_verbatim_witness :
  Samples.record_without_views !! "view_count" = None /\
  @PromptDetailComponent.views
    (@PromptDetailComponent.ngOnInit_next AsciiHost.host Samples.record_without_views)
    = VUndefined /\
  @PromptDetailComponent.views
    (@PromptDetailComponent.ngOnInit_next AsciiHost.host Samples.castle_record)
    = VNum (Int 1500).
Proof.
  assert (Habs : Samples.record_without_views !! "view_count" = None) by reflexivity.
  split; [exact Habs |]. split.
  - destruct (ngOnInit_views_verbatim (H := AsciiHost.host)
                Samples.record_without_views) as (_ & _ & Hnone).
    exact (proj1 (Hnone Habs)).
  - destruct (ngOnInit_views_verbatim (H := AsciiHost.host)
                Samples.castle_record) as (_ & Hsome & _).
    apply Hsome. reflexivity.
Defined.

End MappingFacts.

(* ===================================================================== *)
(** * Search *)
(* ===================================================================== *)

Module FilterFacts.
Import JS Spec JSFacts PromptLibraryComponent.

Section Filter.
Context `{Host}.

(** On a view model with text fields the predicate returns, and decides
    [mentions]. *)
Lemma matches_text (term : string) (p : Prompt) :
  text_fields p ->
  exists b, matches term p = Ok b /\ (b = true <-> mentions term p).
Proof.
  intros (t & d & Et & Ed). unfold matches. rewrite Et, Ed. cbn.
  destruct (includes (String_toLowerCase t) term) eqn:E1.
  - exists true. split; [reflexivity |]. split; [intros _ | reflexivity].
    exists t, d. repeat split; try assumption. left. now apply includes_true.
  - exists (includes (String_toLowerCase d) term). split; [reflexivity |].
    split.
    + intros E2. exists t, d. repeat split; try assumption.
      right. now apply includes_true.
    + intros (t' & d' & Et' & Ed' & Hocc).
      rewrite Et in Et'. rewrite Ed in Ed'.
      injection Et' as <-. injection Ed' as <-.
      destruct Hocc as [Hocc | Hocc]; apply includes_true in Hocc; congruence.
Qed.

Lemma Array_filter_text (term : string) (ps : list Prompt) :
  Forall text_fields ps ->
  exists out, Array_filter (matches term) ps = Ok out /\
              subsequence_where (mentions term) ps out.
Proof.
  induction 1 as [| p ps Hp _ (out & E & Hsub)].
  - exists []. split; [reflexivity | constructor].
  - destruct (matches_text term p Hp) as (b & Eb & Hb).
    cbn [Array_filter]. rewrite Eb, E. cbn.
    destruct b.
    + exists (p :: out). split; [reflexivity |].
      apply sw_keep; [now apply Hb | exact Hsub].
    + exists out. split; [reflexivity |].
      apply sw_drop; [| exact Hsub]. intros Hm. apply Hb in Hm. discriminate.
Qed.

(** A new array leaves the arrays there are as they are. *)
Lemma alloc_fresh (h : gmap positive (list Prompt)) (xs : list Prompt) :
  ((alloc h xs).1 ∉ dom h) /\
  (alloc h xs).2 !! (alloc h xs).1 = Some xs /\
  forall l ys, h !! l = Some ys -> (alloc h xs).2 !! l = Some ys.
Proof.
  unfold alloc. cbn. split; [apply is_fresh |].
  split; [apply lookup_insert_eq |].
  intros l ys Hl. rewrite lookup_insert_ne; [exact Hl |].
  intros E. apply (is_fresh (dom h)). rewrite E. now apply elem_of_dom_2 in Hl.
Qed.

(** C2. [filterPrompts] on view models with text fields: [filteredPrompts]
    becomes a new array; for a search term that is empty once lowercased
    and trimmed it holds the elements of [prompts] in their order, and
    otherwise exactly the subsequence of [prompts], in original order, of
    the view models whose lowercased title or description contains the
    normalized term; [prompts] and every array there was are unchanged. *)
Theorem filterPrompts_subsequence (st : state) (ps : list Prompt) :
  heap st !! prompts st = Some ps ->
  Forall text_fields ps ->
  let term := String_trim (String_toLowerCase (searchTerm st)) in
  exists st' out,
    filterPrompts st = Ok st' /\
    heap st' !! filteredPrompts st' = Some out /\
    (term = "" -> out = ps) /\
    (term <> "" -> subsequence_where (mentions term) ps out) /\
    (filteredPrompts st' ∉ dom (heap st)) /\
    prompts st' = prompts st /\
    searchTerm st' = searchTerm st /\
    heap st' !! prompts st' = Some ps /\
    (forall l xs, heap st !! l = Some xs -> heap st' !! l = Some xs).
Proof.
  intros Hps Hwf term. unfold filterPrompts. fold term.
  assert (Hread : read (heap st) (prompts st) = ps).
  { unfold read. now rewrite Hps. }
  rewrite Hread. cbn [ToBoolean].
  destruct (String.eqb_spec term "") as [Eterm | Eterm]; cbn [negb].
  - destruct (alloc_fresh (heap st) ps) as (Hnew & Hget & Hold).
    destruct (alloc (heap st) ps) as [l h] eqn:Ea. cbn [fst snd] in *.
    eexists _, ps. split; [reflexivity |]. cbn.
    split; [exact Hget |]. split; [reflexivity |].
    split; [intros Hne; now destruct Hne |]. split; [exact Hnew |].
    split; [reflexivity |]. split; [reflexivity |].
    split; [now apply Hold | exact Hold].
  - destruct (Array_filter_text term ps Hwf) as (out & E & Hsub).
    rewrite E. unfold mbind, result_bind.
    destruct (alloc_fresh (heap st) out) as (Hnew & Hget & Hold).
    destruct (alloc (heap st) out) as [l h] eqn:Ea. cbn [fst snd] in *.
    eexists _, out. split; [reflexivity |]. cbn.
    split; [exact Hget |]. split; [intros Hempty; now destruct Eterm |].
    split; [intros _; exact Hsub |]. split; [exact Hnew |].
    split; [reflexivity |]. split; [reflexivity |].
    split; [now apply Hold | exact Hold].
Qed.

(** What [subsequence_where] says: the result is a sublist, and holds the
    elements with [P] and no others. *)
Lemma subsequence_where_sublist {A} (P : A -> Prop) (xs ys : list A) :
  subsequence_where P xs ys ->
  sublist ys xs /\ forall x, x ∈ ys <-> x ∈ xs /\ P x.
Proof.
  induction 1 as [| x xs ys Hx _ [IH1 IH2] | x xs ys Hx _ [IH1 IH2]].
  - split; [constructor |]. intros x. rewrite elem_of_nil. tauto.
  - split; [now constructor |]. intros y. rewrite !elem_of_cons, IH2.
    split; [intros [-> | []]; auto | tauto].
  - split; [now constructor |]. intros y. rewrite elem_of_cons, IH2.
    split; [tauto | intros [[-> | ?] ?]; tauto].
Qed.

End Filter.
End FilterFacts.

Module FilterSamples.
Import JS Spec PromptLibraryComponent Samples.

Lemma view_models_text : Forall text_fields view_models.
Proof. repeat constructor; eexists _, _; split; reflexivity. Qed.

(** Searching for "  Complex  " keeps the castle, by its title, and the
    sunset, by its description, and drops the forest. *)
Lemma filterPrompts_sample :
  exists st',
    @filterPrompts AsciiHost.host searching = Ok st' /\
    read (heap st') (filteredPrompts st') =
      [@toPrompt AsciiHost.host castle_record;
       @toPrompt AsciiHost.host record_without_views] /\
    read (heap st') (prompts st') = view_models /\
    filteredPrompts st' <> prompts st'.
Proof.
  eexists. split; [vm_compute; reflexivity |].
  split; [vm_compute; reflexivity |]. split; [vm_compute; reflexivity |].
  vm_compute. discriminate.
Qed.

Lemma filterPrompts_subsequence_witness :
  heap searching !! prompts searching = Some view_models /\
  Forall text_fields view_models /\
  exists st' out,
    @filterPrompts AsciiHost.host searching = Ok st' /\
    heap st' !! filteredPrompts st' = Some out /\
    subsequence_where (@mentions AsciiHost.host "complex") view_models out.
Proof.
  assert (Hps : heap searching !! prompts searching = Some view_models)
    by (vm_compute; reflexivity).
  split; [exact Hps |]. split; [exact view_models_text |].
  destruct (FilterFacts.filterPrompts_subsequence (H := AsciiHost.host)
              searching view_models Hps view_models_text)
    as (st' & out & E & Hout & _ & Hsub & _).
  exists st', out. split; [exact E |]. split; [exact Hout |].
  apply Hsub. discriminate.
Defined.

End FilterSamples.

(* ===================================================================== *)
(** * Malformed input *)
(* ===================================================================== *)

Module SafetyFacts.
Import JS Spec JSFacts.

Section Safety.
Context `{Host}.







End Safety.


End SafetyFacts.

(* ===================================================================== *)
(** * Further facts *)
(* ===================================================================== *)

Module MoreFacts.
Import JS Spec.

(** The examples of the pipe's header, and the one of the specification:
    the lookup does not see the case of the letters. *)
Lemma transform_header_examples :
  @ComplexityToColorPipe.transform AsciiHost.host (VStr "Simple") = Ok "#D0EBFF" /\
  @ComplexityToColorPipe.transform AsciiHost.host (VStr "MODERATE") = Ok "#FFF7C3" /\
  @ComplexityToColorPipe.transform AsciiHost.host (VStr "complex") = Ok "#FFE5E5" /\
  @ComplexityToColorPipe.transform AsciiHost.host (VStr "unknown") = Ok "#f5f5f5" /\
  @ComplexityToColorPipe.transform AsciiHost.host (VStr "SIMPLE")
    = @ComplexityToColorPipe.transform AsciiHost.host (VStr "simple").
Proof. repeat split; vm_compute; reflexivity. Qed.

Section More.
Context `{Host}.

(** After [loadPrompts], [filteredPrompts] is a second new array with the
    view models of [prompts]. *)
Lemma loadPrompts_filtered_copy (st : PromptLibraryComponent.state)
    (data : list raw) :
  let st' := PromptLibraryComponent.loadPrompts_next st data in
  PromptLibraryComponent.read (PromptLibraryComponent.heap st')
    (PromptLibraryComponent.filteredPrompts st')
  = map PromptLibraryComponent.toPrompt data /\
  PromptLibraryComponent.filteredPrompts st' <> PromptLibraryComponent.prompts st' /\
  (PromptLibraryComponent.prompts st' ∉ dom (PromptLibraryComponent.heap st)) /\
  (PromptLibraryComponent.filteredPrompts st' ∉ dom (PromptLibraryComponent.heap st)) /\
  PromptLibraryComponent.searchTerm st' = PromptLibraryComponent.searchTerm st.
Proof.
  cbv zeta. unfold PromptLibraryComponent.loadPrompts_next.
  unfold PromptLibraryComponent.alloc, PromptLibraryComponent.read. cbn.
  set (h := PromptLibraryComponent.heap st).
  set (l1 := fresh (dom h)).
  rewrite lookup_insert_eq. cbn.
  set (h1 := <[l1 := _]> h).
  assert (Hne : fresh (dom h1) <> l1).
  { intros E. apply (is_fresh (dom h1)). rewrite E.
    apply elem_of_dom. unfold h1. rewrite lookup_insert_eq. eauto. }
  split; [unfold h1; now rewrite lookup_insert_eq |]. split; [exact Hne |].
  split; [apply is_fresh |]. split; [| reflexivity].
  intros Hin. apply (is_fresh (dom h1)).
  unfold h1 at 2. rewrite dom_insert_L. set_solver.
Qed.

(** A view model keeps the level of its record, and its label is the
    three-bucket label of that level. *)
Lemma toPrompt_level_and_label (r : raw) :
  PromptLibraryComponent.complexityLevel (PromptLibraryComponent.toPrompt r)
    = get r "complexity" /\
  PromptLibraryComponent.complexity (PromptLibraryComponent.toPrompt r)
    = PromptLibraryComponent.getComplexityText
        (PromptLibraryComponent.complexityLevel (PromptLibraryComponent.toPrompt r)) /\
  PromptLibraryComponent.id (PromptLibraryComponent.toPrompt r) = get r "id" /\
  PromptLibraryComponent.title (PromptLibraryComponent.toPrompt r) = get r "title" /\
  PromptLibraryComponent.description (PromptLibraryComponent.toPrompt r)
    = get r "content".
Proof. repeat split. Qed.

End More.

(** The sample response, loaded: view counts, labels and dates. *)
Lemma loadPrompts_sample :
  map (fun p => (PromptLibraryComponent.complexity p,
                 PromptLibraryComponent.views p,
                 PromptLibraryComponent.date p))
      (PromptLibraryComponent.read (PromptLibraryComponent.heap Samples.loaded)
         (PromptLibraryComponent.prompts Samples.loaded))
  = [("Complex", VNum (Int 1500), "Nov 20, 2023");
     ("Simple", VNum (Int 0), "Invalid Date");
     ("Moderate", VNum (Int 0), "Jan 5, 2024")].
Proof. vm_compute. reflexivity. Qed.

End MoreFacts.

(* ===================================================================== *)
(** * The classifiers together *)
(* ===================================================================== *)

Module ConsistencyFacts.
Import JS Spec.

Section Consistency.
Context `{Host}.

Ltac compare_levels :=
  repeat match goal with
  | |- context [(?a <=? ?b)%Z] => destruct (Z.leb_spec a b)
  | |- context [(?a =? ?b)%Z] => destruct (Z.eqb_spec a b)
  | H : context [(?a <=? ?b)%Z] |- _ => destruct (Z.leb_spec a b)
  | H : context [(?a =? ?b)%Z] |- _ => destruct (Z.eqb_spec a b)
  end.

(** The label of the detail view and of the form is the label of the
    library exactly on the levels 1 to 10; and on every value the style
    class is the label in lower case, in both components. *)
Theorem labels_agree_on_the_scale (L : Z) (v : value) :
  (PromptDetailComponent.getComplexityText (VNum (Int L))
     = PromptLibraryComponent.getComplexityText (VNum (Int L))
   <-> 1 <= L <= 10) /\
  (AddPromptComponent.getComplexityText (VNum (Int L))
     = PromptLibraryComponent.getComplexityText (VNum (Int L))
   <-> 1 <= L <= 10) /\
  AddPromptComponent.getComplexityText (VNum (Int L))
    = PromptDetailComponent.getComplexityText (VNum (Int L)) /\
  PromptDetailComponent.getComplexityClass v
    = AsciiHost.toLowerCase (PromptDetailComponent.getComplexityText v) /\
  AddPromptComponent.getComplexityClass v
    = AsciiHost.toLowerCase (AddPromptComponent.getComplexityText v).
Proof.
  unfold PromptDetailComponent.getComplexityText,
    PromptDetailComponent.getComplexityClass,
    AddPromptComponent.getComplexityText, AddPromptComponent.getComplexityClass,
    PromptLibraryComponent.getComplexityText.
  split; [| split; [| split; [| split]]].
  - unfold js_ge, js_le. cbn [ToNumber].
    split; [intros E | intros HL]; compare_levels; cbn in *;
      solve [lia | reflexivity | discriminate].
  - unfold js_ge, js_le. cbn [ToNumber ToBoolean].
    split; [intros E | intros HL]; compare_levels; cbn in *;
      solve [lia | reflexivity | discriminate].
  - unfold js_le. cbn [ToNumber ToBoolean].
    compare_levels; cbn; solve [lia | reflexivity].
  - destruct (js_le v 3), (js_le v 7); reflexivity.
  - destruct (negb (ToBoolean v)), (js_le v 3), (js_le v 7); reflexivity.
Qed.

(** The pipe on every value: a value that is not a string makes it throw;
    on a string it returns one of four colours, and each colour tells the
    lowercased text it stands for. *)
Theorem transform_by_lowercased_text (v : value) :
  ((forall s, v <> VStr s) -> ComplexityToColorPipe.transform v = Throw TypeError) /\
  (forall s, v = VStr s ->
     exists c, ComplexityToColorPipe.transform v = Ok c /\
       (c = "#D0EBFF" <-> String_toLowerCase s = "simple") /\
       (c = "#FFF7C3" <-> String_toLowerCase s = "moderate") /\
       (c = "#FFE5E5" <-> String_toLowerCase s = "complex") /\
       (c = "#f5f5f5" <->
          String_toLowerCase s <> "simple" /\
          String_toLowerCase s <> "moderate" /\
          String_toLowerCase s <> "complex")).
Proof.
  split.
  - intros Hv. destruct v as [| | b | n | s]; try reflexivity. now destruct (Hv s).
  - intros s ->. unfold ComplexityToColorPipe.transform. cbn.
    destruct (String.eqb_spec (String_toLowerCase s) "simple") as [-> | H1].
    { eexists. split; [reflexivity |]. repeat split; intros; try discriminate;
        try reflexivity; tauto. }
    destruct (String.eqb_spec (String_toLowerCase s) "moderate") as [-> | H2].
    { eexists. split; [reflexivity |]. repeat split; intros; try discriminate;
        try reflexivity; tauto. }
    destruct (String.eqb_spec (String_toLowerCase s) "complex") as [-> | H3].
    { eexists. split; [reflexivity |]. repeat split; intros; try discriminate;
        try reflexivity; tauto. }
    eexists. split; [reflexivity |].
    repeat split; intros; try discriminate; try reflexivity; try tauto;
      try congruence.
Qed.

(** The colours of a card, from the level of its record: the label of the
    library through the pipe and through [getComplexityColor], on a host
    that lowercases the four labels as ASCII does. Neither throws on a
    label; a level off the scale gets the grey of the pipe and the theme
    colour of a simple prompt. *)
Theorem chip_colour_of_level (L : Z) :
  String_toLowerCase "Simple" = "simple" ->
  String_toLowerCase "Moderate" = "moderate" ->
  String_toLowerCase "Complex" = "complex" ->
  String_toLowerCase "Unknown" = "unknown" ->
  let label := VStr (PromptLibraryComponent.getComplexityText (VNum (Int L))) in
  let colour := ComplexityToColorPipe.transform label in
  let theme := PromptLibraryComponent.getComplexityColor label in
  (1 <= L <= 3 -> colour = Ok "#D0EBFF" /\ theme = Ok "primary") /\
  (4 <= L <= 7 -> colour = Ok "#FFF7C3" /\ theme = Ok "accent") /\
  (8 <= L <= 10 -> colour = Ok "#FFE5E5" /\ theme = Ok "warn") /\
  (L < 1 \/ 10 < L -> colour = Ok "#f5f5f5" /\ theme = Ok "primary").
Proof.
  intros Hs Hm Hc Hu label colour theme. subst label colour theme.
  unfold ComplexityToColorPipe.transform,
    PromptLibraryComponent.getComplexityColor,
    PromptLibraryComponent.getComplexityText, js_ge, js_le.
  cbn [ToNumber toLowerCase].
  split; [| split; [| split]]; intros HL; split; compare_levels; cbn [andb];
    try lia; cbn; rewrite ?Hs, ?Hm, ?Hc, ?Hu; reflexivity.
Qed.

End Consistency.

Lemma chip_colour_of_level_witness :
  @ComplexityToColorPipe.transform AsciiHost.host
    (VStr (@PromptLibraryComponent.getComplexityText AsciiHost.host (VNum (Int 5))))
  = Ok "#FFF7C3" /\
  @PromptLibraryComponent.getComplexityColor AsciiHost.host
    (VStr (@PromptLibraryComponent.getComplexityText AsciiHost.host (VNum (Int 5))))
  = Ok "accent".
Proof.
  apply (chip_colour_of_level (H := AsciiHost.host) 5
           eq_refl eq_refl eq_refl eq_refl).
  lia.
Defined.

End ConsistencyFacts.

(* ===================================================================== *)
(** * Searching, again and again *)
(* ===================================================================== *)

Module SearchFacts.
Import JS Spec JSFacts PromptLibraryComponent PromptLibraryPage.

Section Search.
Context `{Host}.

(** What [filter] returns is a sublist of what it was given, whatever the
    callback. *)
Lemma Array_filter_sublist {A} (f : A -> result bool) (xs ys : list A) :
  Array_filter f xs = Ok ys -> sublist ys xs.
Proof.
  revert ys. induction xs as [| x xs IH]; intros ys; cbn [Array_filter].
  - intros [= <-]. constructor.
  - destruct (f x) as [b | e]; [| discriminate]. cbn.
    destruct (Array_filter f xs) as [zs | e]; [| discriminate]. cbn.
    intros [= <-]. destruct b; [apply sublist_skip | apply sublist_cons]; auto.
Qed.

(** What [filterPrompts] leaves in [filteredPrompts] is a function of the
    search term and of the elements of [prompts]. *)
Lemma filterPrompts_shown (st : state) :
  shown_after (filterPrompts st) =
    let term := String_trim (String_toLowerCase (searchTerm st)) in
    if String.eqb term "" then Ok (read (heap st) (prompts st))
    else Array_filter (matches term) (read (heap st) (prompts st)).
Proof.
  cbv zeta. unfold filterPrompts. cbn [ToBoolean].
  destruct (String.eqb _ ""); cbn [negb].
  - unfold alloc, shown_after, shown, read. cbn. now rewrite lookup_insert_eq.
  - destruct (Array_filter _ _) as [out | e]; [| reflexivity].
    unfold alloc, shown_after, shown, read. cbn. now rewrite lookup_insert_eq.
Qed.

(** [filterPrompts] leaves [prompts] and its elements alone. *)
Lemma filterPrompts_frame (st st' : state) :
  is_Some (heap st !! prompts st) -> filterPrompts st = Ok st' ->
  prompts st' = prompts st /\ searchTerm st' = searchTerm st /\
  read (heap st') (prompts st') = read (heap st) (prompts st) /\
  filteredPrompts st' <> prompts st'.
Proof.
  intros Hsome. unfold filterPrompts.
  assert (Hfresh : fresh (dom (heap st)) <> prompts st).
  { intros E. apply (is_fresh (dom (heap st))). rewrite E.
    now apply elem_of_dom. }
  destruct (negb _).
  - unfold alloc. intros [= <-]. cbn. unfold read.
    now rewrite lookup_insert_ne.
  - destruct (Array_filter _ _) as [out | e]; [| discriminate]. cbn.
    unfold alloc. intros [= <-]. cbn. unfold read.
    now rewrite lookup_insert_ne.
Qed.

(** A search never invents an entry and never reorders: whatever the view
    models are, what is shown after a call that returned is a sublist of
    [prompts], and [prompts] holds what it held. *)
Theorem filterPrompts_shows_a_sublist (st st' : state) (ps : list Prompt) :
  heap st !! prompts st = Some ps ->
  filterPrompts st = Ok st' ->
  sublist (shown st') ps /\
  (length (shown st') <= length ps)%nat /\
  read (heap st') (prompts st') = ps.
Proof.
  intros Hps E.
  assert (Hread : read (heap st) (prompts st) = ps) by (unfold read; now rewrite Hps).
  assert (Hsub : sublist (shown st') ps).
  { pose proof (filterPrompts_shown st) as Hshown. rewrite E in Hshown.
    cbv zeta in Hshown. rewrite Hread in Hshown. cbn [shown_after] in Hshown.
    destruct (String.eqb _ "").
    - injection Hshown as ->. reflexivity.
    - symmetry in Hshown. now apply Array_filter_sublist in Hshown. }
  split; [exact Hsub |]. split; [now apply sublist_length |].
  destruct (filterPrompts_frame st st' ltac:(rewrite Hps; eauto) E)
    as (_ & _ & Hkeep & _).
  now rewrite Hkeep.
Qed.

(** Every search starts from all of [prompts]: after a search, a search
    for [s] shows what it would have shown without the first one, or
    throws as it would have. *)
Theorem search_starts_from_all_prompts (st st1 : state) (s : string) :
  is_Some (heap st !! prompts st) ->
  filterPrompts st = Ok st1 ->
  shown_after (filterPrompts (set_searchTerm s st1))
  = shown_after (filterPrompts (set_searchTerm s st)).
Proof.
  intros Hsome E.
  destruct (filterPrompts_frame st st1 Hsome E) as (Hp & _ & Hkeep & _).
  rewrite !filterPrompts_shown. cbn [set_searchTerm searchTerm heap prompts].
  now rewrite Hkeep.
Qed.

Lemma occurs_in_trans (a b c : string) :
  occurs_in a b -> occurs_in b c -> occurs_in a c.
Proof.
  intros (p1 & q1 & ->) (p2 & q2 & ->).
  exists (p2 +:+ p1), (q1 +:+ q2). now rewrite !append_assoc.
Qed.

Lemma mentions_shorter (t t' : string) (p : Prompt) :
  occurs_in t t' -> mentions t' p -> mentions t p.
Proof.
  intros Htt (a & d & Ea & Ed & Hocc). exists a, d.
  split; [exact Ea |]. split; [exact Ed |].
  destruct Hocc; [left | right]; eapply occurs_in_trans; eauto.
Qed.

Lemma subsequence_where_narrower {A} (P Q : A -> Prop) (xs ys zs : list A) :
  (forall x, Q x -> P x) ->
  subsequence_where P xs ys -> subsequence_where Q xs zs -> sublist zs ys.
Proof.
  intros HQP HP. revert zs.
  induction HP as [| x xs ys Hx _ IH | x xs ys Hx _ IH]; intros zs HQ;
    inversion HQ; subst.
  - constructor.
  - apply sublist_skip. now apply IH.
  - apply sublist_cons. now apply IH.
  - now destruct Hx; apply HQP.
  - now apply IH.
Qed.

Lemma subsequence_where_all {A} (P : A -> Prop) (xs ys : list A) :
  subsequence_where P xs ys -> sublist ys xs.
Proof.
  induction 1; [constructor | now apply sublist_skip | now apply sublist_cons].
Qed.

(** What is shown for a term, on view models with text fields. *)
Lemma shown_for_term (st : state) (ps : list Prompt) :
  heap st !! prompts st = Some ps -> Forall text_fields ps ->
  let term := String_trim (String_toLowerCase (searchTerm st)) in
  exists out, shown_after (filterPrompts st) = Ok out /\
    (term = "" -> out = ps) /\
    (term <> "" -> subsequence_where (mentions term) ps out).
Proof.
  intros Hps Hwf term. rewrite filterPrompts_shown. cbv zeta. fold term.
  assert (Hread : read (heap st) (prompts st) = ps) by (unfold read; now rewrite Hps).
  rewrite Hread.
  destruct (String.eqb_spec term "") as [E | E].
  - exists ps. split; [reflexivity |]. split; [reflexivity | intros []; exact E].
  - destruct (FilterFacts.Array_filter_text term ps Hwf) as (out & Eout & Hsub).
    exists out. split; [exact Eout |]. split; [intros []%E | intros _; exact Hsub].
Qed.

(** A longer term narrows the list: when the normalized term of one search
    occurs in the normalized term of another, what the second shows is a
    sublist of what the first shows. *)
Theorem longer_term_narrows (st : state) (ps : list Prompt) (s s' : string) :
  heap st !! prompts st = Some ps ->
  Forall text_fields ps ->
  occurs_in (String_trim (String_toLowerCase s))
            (String_trim (String_toLowerCase s')) ->
  exists out out',
    shown_after (filterPrompts (set_searchTerm s st)) = Ok out /\
    shown_after (filterPrompts (set_searchTerm s' st)) = Ok out' /\
    sublist out' out.
Proof.
  intros Hps Hwf Hocc.
  destruct (shown_for_term (set_searchTerm s st) ps Hps Hwf)
    as (out & E & Hall & Hsub).
  destruct (shown_for_term (set_searchTerm s' st) ps Hps Hwf)
    as (out' & E' & Hall' & Hsub').
  cbn [set_searchTerm searchTerm] in *.
  exists out, out'. split; [exact E |]. split; [exact E' |].
  set (t := String_trim (String_toLowerCase s)) in *.
  set (t' := String_trim (String_toLowerCase s')) in *.
  destruct (String.eqb_spec t "") as [Et | Et].
  - rewrite (Hall Et).
    destruct (String.eqb_spec t' "") as [Et' | Et'].
    + now rewrite (Hall' Et').
    + eapply subsequence_where_all, Hsub', Et'.
  - assert (Et' : t' <> "").
    { intros E0. destruct Hocc as (p & q & Epq). rewrite E0 in Epq.
      destruct p; [| discriminate]. destruct t; [now apply Et | discriminate]. }
    eapply subsequence_where_narrower;
      [| apply Hsub, Et | apply Hsub', Et'].
    intros p. now apply mentions_shorter.
Qed.

Lemma toPrompt_text (r : raw) : text_record r -> text_fields (toPrompt r).
Proof.
  intros (t & c & Et & Ec). exists t, c. cbn. unfold get. now rewrite Et, Ec.
Qed.

(** Loading and then searching: for a response whose records have text for
    [title] and [content], every search returns, and shows the view models
    of the matching records in the order of the response, all of them for
    an empty term. *)
Theorem load_then_search (st : state) (data : list raw) (s : string) :
  Forall PromptLibraryPage.text_record data ->
  let term := String_trim (String_toLowerCase s) in
  exists out,
    shown_after (filterPrompts (set_searchTerm s (loadPrompts_next st data)))
      = Ok out /\
    sublist out (map toPrompt data) /\
    (term = "" -> out = map toPrompt data) /\
    (term <> "" -> subsequence_where (mentions term) (map toPrompt data) out).
Proof.
  intros Hdata term.
  pose proof (MappingFacts.loadPrompts_prompts st data) as Hload. cbv zeta in Hload.
  set (st1 := loadPrompts_next st data) in *.
  assert (Hps : heap (set_searchTerm s st1) !! prompts (set_searchTerm s st1)
                = Some (map toPrompt data)).
  { cbn [set_searchTerm heap prompts]. unfold st1, loadPrompts_next, alloc. cbn.
    rewrite lookup_insert_ne.
    - now rewrite lookup_insert_eq.
    - intros E. apply (is_fresh (dom (<[fresh (dom (heap st)) := map toPrompt data]>
                                        (heap st)))).
      rewrite E. apply elem_of_dom. rewrite lookup_insert_eq. eauto. }
  assert (Hwf : Forall text_fields (map toPrompt data)).
  { apply Forall_fmap. eapply Forall_impl; [exact Hdata |].
    intros r Hr. now apply toPrompt_text. }
  destruct (shown_for_term _ _ Hps Hwf) as (out & E & Hall & Hsub).
  cbn [set_searchTerm searchTerm] in Hall, Hsub. fold term in Hall, Hsub.
  exists out. split; [exact E |]. split; [| split; assumption].
  destruct (String.eqb_spec term "") as [Et | Et].
  - now rewrite (Hall Et).
  - eapply subsequence_where_all, Hsub, Et.
Qed.


End Search.
End SearchFacts.

Module SearchWitnesses.
Import JS Spec PromptLibraryComponent PromptLibraryPage Samples SearchSamples.

(** The view model of the record without [content] has no description; a
    search that its title answers returns all the same. *)
Lemma filterPrompts_shows_a_sublist_witness :
  heap (set_searchTerm "COMPLEX d" loaded_dunes)
    !! prompts (set_searchTerm "COMPLEX d" loaded_dunes)
    = Some (map (@toPrompt AsciiHost.host) [record_without_content; castle_record]) /\
  @filterPrompts AsciiHost.host (set_searchTerm "COMPLEX d" loaded_dunes)
    = Ok searched_dunes /\
  sublist (shown searched_dunes)
    (map (@toPrompt AsciiHost.host) [record_without_content; castle_record]).
Proof.
  assert (Hps : heap (set_searchTerm "COMPLEX d" loaded_dunes)
                  !! prompts (set_searchTerm "COMPLEX d" loaded_dunes)
                = Some (map (@toPrompt AsciiHost.host)
                          [record_without_content; castle_record]))
    by (vm_compute; reflexivity).
  assert (E : @filterPrompts AsciiHost.host (set_searchTerm "COMPLEX d" loaded_dunes)
              = Ok searched_dunes) by (vm_compute; reflexivity).
  split; [exact Hps |]. split; [exact E |].
  apply (SearchFacts.filterPrompts_shows_a_sublist (H := AsciiHost.host) _ _ _ Hps E).
Defined.

Lemma search_starts_from_all_prompts_witness :
  is_Some (heap (set_searchTerm "COMPLEX d" loaded_dunes)
             !! prompts (set_searchTerm "COMPLEX d" loaded_dunes)) /\
  shown_after (@filterPrompts AsciiHost.host (set_searchTerm "castle" searched_dunes))
  = shown_after
      (@filterPrompts AsciiHost.host
         (set_searchTerm "castle" (set_searchTerm "COMPLEX d" loaded_dunes))).
Proof.
  assert (Hsome : is_Some (heap (set_searchTerm "COMPLEX d" loaded_dunes)
                             !! prompts (set_searchTerm "COMPLEX d" loaded_dunes)))
    by (vm_compute; eauto).
  split; [exact Hsome |].
  apply (SearchFacts.search_starts_from_all_prompts (H := AsciiHost.host)
           _ searched_dunes "castle" Hsome).
  vm_compute. reflexivity.
Defined.

Lemma longer_term_narrows_witness :
  heap loaded !! prompts loaded = Some view_models /\
  Forall text_fields view_models /\
  exists out out',
    shown_after (@filterPrompts AsciiHost.host (set_searchTerm " Complex" loaded))
      = Ok out /\
    shown_after (@filterPrompts AsciiHost.host (set_searchTerm "COMPLEX C" loaded))
      = Ok out' /\
    sublist out' out.
Proof.
  assert (Hps : heap loaded !! prompts loaded = Some view_models)
    by (vm_compute; reflexivity).
  split; [exact Hps |]. split; [exact FilterSamples.view_models_text |].
  apply (SearchFacts.longer_term_narrows (H := AsciiHost.host) loaded view_models
           " Complex" "COMPLEX C" Hps FilterSamples.view_models_text).
  exists "", " c". reflexivity.
Defined.

Lemma response_text : Forall text_record response.
Proof. repeat constructor; eexists _, _; split; reflexivity. Qed.

Lemma load_then_search_witness :
  Forall text_record response /\
  exists out,
    shown_after
      (@filterPrompts AsciiHost.host
         (set_searchTerm "sea" (@loadPrompts_next AsciiHost.host initial response)))
      = Ok out /\
    sublist out (map (@toPrompt AsciiHost.host) response).
Proof.
  split; [exact response_text |].
  destruct (SearchFacts.load_then_search (H := AsciiHost.host) initial response
              "sea" response_text) as (out & E & Hsub & _).
  exists out. split; [exact E | exact Hsub].
Defined.

End SearchWitnesses.

(* ===================================================================== *)
(** * Days, as they pass *)
(* ===================================================================== *)

Module RecencyMore.
Import JS Spec JSFacts PromptDetailComponent.

Section Passing.
Context `{Host}.

(** The days of a date seen at two readings of the clock: a later reading
    never gives fewer days, and a reading whole days later gives that many
    days more. *)
Theorem getDaysAgo_as_days_pass (now now' : Z) (s : string) (t : Z) :
  Z.abs now <= max_clock -> Z.abs now' <= max_clock ->
  s <> "" -> Date_new (VStr s) = Int t ->
  exists d d',
    getDaysAgo now (VStr s) = Int d /\
    getDaysAgo now' (VStr s) = Int d' /\
    (now <= now' -> d <= d') /\
    (forall k, now' = now + 86400000 * k -> d' = d + k).
Proof.
  intros Hnow Hnow' Hs E.
  exists ((now - t) / 86400000), ((now' - t) / 86400000).
  split; [now apply RecencyFacts.getDaysAgo_valid |].
  split; [now apply RecencyFacts.getDaysAgo_valid |].
  split.
  - intros Hle. apply Z.div_le_mono; lia.
  - intros k ->.
    replace (now + 86400000 * k - t) with (now - t + k * 86400000) by lia.
    apply Z.div_add. lia.
Qed.

End Passing.

Lemma getDaysAgo_as_days_pass_witness :
  Z.abs 1767225600000 <= max_clock /\
  Z.abs (1767225600000 + 86400000 * 30) <= max_clock /\
  exists d d',
    @getDaysAgo AsciiHost.host 1767225600000 (VStr "2025-12-25T12:00:00.000Z")
      = Int d /\
    @getDaysAgo AsciiHost.host (1767225600000 + 86400000 * 30)
      (VStr "2025-12-25T12:00:00.000Z") = Int d' /\
    d' = d + 30.
Proof.
  assert (Hnow : Z.abs 1767225600000 <= max_clock) by (vm_compute; discriminate).
  assert (Hnow' : Z.abs (1767225600000 + 86400000 * 30) <= max_clock)
    by (vm_compute; discriminate).
  split; [exact Hnow |]. split; [exact Hnow' |].
  destruct (getDaysAgo_as_days_pass (H := AsciiHost.host)
              1767225600000 (1767225600000 + 86400000 * 30)
              "2025-12-25T12:00:00.000Z" 1766664000000 Hnow Hnow')
    as (d & d' & E & E' & _ & Hk);
    [discriminate | vm_compute; reflexivity |].
  exists d, d'. split; [exact E |]. split; [exact E' |].
  apply Hk. reflexivity.
Defined.

End RecencyMore.

(* ===================================================================== *)
(** * The session *)
(* ===================================================================== *)

Module SessionFacts.
Import JS Spec JSFacts Browser.

Section Session.
Context `{Host} `{Platform}.

(** [logout], from the navigation bar or from the library: the two keys
    of the session are gone, every other key of the storage keeps its
    value, the one thing asked for is the login page, and a second [logout]
    changes nothing in the storage. *)
Theorem logout_clears_the_session (w : world) (k : string) :
  let w' := NavbarComponent.logout w in
  getItem "authToken" w' = VNull /\
  getItem "user" w' = VNull /\
  (k <> "authToken" -> k <> "user" -> getItem k w' = getItem k w) /\
  effects w' = effects w ++ [Navigate [VStr "/login"]] /\
  localStorage (NavbarComponent.logout w') = localStorage w' /\
  PromptLibraryActions.logout w = w'.
Proof.
  cbv zeta. unfold NavbarComponent.logout, PromptLibraryActions.logout,
    getItem, removeItem, emit. cbn.
  split; [rewrite lookup_delete_ne, lookup_delete_eq by discriminate; reflexivity |].
  split; [now rewrite lookup_delete_eq |].
  split; [intros H1 H2; now rewrite !lookup_delete_ne by congruence |].
  split; [reflexivity |]. split; [| reflexivity].
  rewrite (delete_delete _ "authToken" "user"), delete_delete_eq.
  now rewrite delete_delete_eq.
Qed.

Lemma token_not_empty (now : Z) : LoginComponent.generateMockToken now <> "".
Proof.
  unfold LoginComponent.generateMockToken. cbv zeta.
  destruct (btoa _); discriminate.
Qed.

(** Logging in with the demo credentials and out again. When the timer of
    a successful login fires, the storage holds a token that is not empty
    and the demo user, and the dashboard is asked for; the login page then
    sends on to the dashboard when it is opened; after [logout] it does not,
    and the storage is what [logout] alone would have left: the storage
    before the login, when that held no session. *)
Theorem demo_session_round_trip (now : Z) (st st' : LoginComponent.state)
    (w : world) :
  let st1 := (LoginComponent.handleSuccessfulLogin_timeout now st w).1 in
  let w1 := (LoginComponent.handleSuccessfulLogin_timeout now st w).2 in
  LoginComponent.isLoading st1 = false /\
  (exists token, getItem "authToken" w1 = VStr token /\ token <> "") /\
  getItem "user" w1 = VStr LoginComponent.HARDCODED_USER_json /\
  effects w1 = effects w ++ [Navigate [VStr "/dashboard"]] /\
  effects (LoginComponent.ngOnInit st' w1).2
    = effects w1 ++ [Navigate [VStr "/dashboard"]] /\
  effects (LoginComponent.ngOnInit st' (NavbarComponent.logout w1)).2
    = effects (NavbarComponent.logout w1) /\
  localStorage (NavbarComponent.logout w1)
    = localStorage (NavbarComponent.logout w) /\
  (localStorage w !! "authToken" = None -> localStorage w !! "user" = None ->
   localStorage (NavbarComponent.logout w1) = localStorage w).
Proof.
  cbv zeta.
  assert (Hstore : localStorage
                     (NavbarComponent.logout
                        (LoginComponent.handleSuccessfulLogin_timeout now st w).2)
                   = localStorage (NavbarComponent.logout w)).
  { unfold NavbarComponent.logout, LoginComponent.handleSuccessfulLogin_timeout,
      removeItem, setItem, emit. cbn.
    rewrite (delete_insert_ne _ "authToken" "user") by discriminate.
    rewrite delete_insert_eq.
    now rewrite delete_insert_eq. }
  split; [reflexivity |].
  split.
  { exists (LoginComponent.generateMockToken now). split; [| apply token_not_empty].
    unfold LoginComponent.handleSuccessfulLogin_timeout, getItem, setItem, emit.
    cbn. now rewrite lookup_insert_ne, lookup_insert_eq by discriminate. }
  split.
  { unfold LoginComponent.handleSuccessfulLogin_timeout, getItem, setItem, emit.
    cbn. now rewrite lookup_insert_eq. }
  split; [reflexivity |].
  split.
  { unfold LoginComponent.ngOnInit, LoginComponent.handleSuccessfulLogin_timeout,
      getItem, setItem, emit. cbn.
    rewrite lookup_insert_ne, lookup_insert_eq by discriminate. cbn.
    pose proof (token_not_empty now) as Hne.
    apply String.eqb_neq in Hne. now rewrite Hne. }
  split.
  { unfold LoginComponent.ngOnInit, getItem. cbv zeta.
    replace (localStorage
               (NavbarComponent.logout
                  (LoginComponent.handleSuccessfulLogin_timeout now st w).2)
               !! "authToken") with (@None string); [reflexivity |].
    unfold NavbarComponent.logout, removeItem, emit. cbn.
    now rewrite lookup_delete_ne, lookup_delete_eq by discriminate. }
  split; [exact Hstore |].
  intros Ht Hu. rewrite Hstore.
  unfold NavbarComponent.logout, removeItem, emit. cbn.
  rewrite (delete_id _ "authToken" Ht). now apply delete_id.
Qed.

(** [onSubmit] never writes to the storage and asks for one thing at most:
    nothing when the form is not valid, the timer of the demo login for the
    demo credentials, and otherwise the login request with the two values
    of the form. Valid or not, a password of one to five characters or an
    empty address stops it. *)
Theorem onSubmit_asks_for (st : LoginComponent.state) (w : world) :
  let st' := (LoginComponent.onSubmit st w).1 in
  let w' := (LoginComponent.onSubmit st w).2 in
  localStorage w' = localStorage w /\
  (LoginComponent.valid st = false ->
     w' = w /\ LoginComponent.isLoading st' = LoginComponent.isLoading st /\
     LoginComponent.email_touched st' = true /\
     LoginComponent.password_touched st' = true) /\
  (LoginComponent.valid st = true ->
     LoginComponent.isLoading st' = true /\ LoginComponent.error st' = VStr "" /\
     (LoginComponent.email st = VStr LoginComponent.HARDCODED_EMAIL ->
      LoginComponent.password st = VStr LoginComponent.HARDCODED_PASSWORD ->
      effects w' = effects w ++ [SetTimeout 1000]) /\
     (LoginComponent.checkHardcodedCredentials
        (LoginComponent.email st) (LoginComponent.password st) = false ->
      effects w' = effects w ++
        [HttpPost "http://127.0.0.1:8000/api/auth/login/"
           {[ "email" := LoginComponent.email st;
              "password" := LoginComponent.password st ]}])) /\
  (forall p, LoginComponent.password st = VStr p ->
     (String.length p < 6)%nat -> w' = w) /\
  (LoginComponent.email st = VStr "" -> w' = w).
Proof.
  cbv zeta. unfold LoginComponent.onSubmit.
  assert (Hshort : forall p, LoginComponent.password st = VStr p ->
            (String.length p < 6)%nat -> LoginComponent.valid st = false).
  { intros p Ep Hp. unfold LoginComponent.valid. rewrite Ep.
    unfold Validators.required, Validators.minLength.
    cbn [Validators.isEmptyInputValue].
    destruct (Nat.eqb_spec (String.length p) 0) as [E0 | E0].
    - now rewrite andb_false_r.
    - destruct (Nat.leb_spec 6 (String.length p)); [lia |].
      now rewrite !andb_false_r. }
  assert (Hempty : LoginComponent.email st = VStr "" -> LoginComponent.valid st = false).
  { intros Ee. unfold LoginComponent.valid. now rewrite Ee. }
  destruct (LoginComponent.valid st) eqn:Ev.
  - split.
    { cbn [LoginComponent.email LoginComponent.password].
      destruct (LoginComponent.checkHardcodedCredentials _ _); reflexivity. }
    split; [discriminate |].
    split.
    { intros _. cbn [LoginComponent.email LoginComponent.password].
      split; [destruct (LoginComponent.checkHardcodedCredentials _ _); reflexivity |].
      split; [destruct (LoginComponent.checkHardcodedCredentials _ _); reflexivity |].
      split.
      - intros -> ->. reflexivity.
      - intros ->. reflexivity. }
    split.
    + intros p Ep Hp. discriminate (Hshort p Ep Hp).
    + intros Ee. discriminate (Hempty Ee).
  - cbn. split; [reflexivity |]. split; [now repeat split |].
    split; [discriminate |]. split; reflexivity.
Qed.

(** [quickLogin] goes the demo way whatever the form held, on a platform
    whose address pattern accepts the demo address: the form holds the demo
    credentials, the component is loading, the error text is empty, the
    timer is set, and the login request is not sent. *)
Theorem quickLogin_never_asks_the_server (st : LoginComponent.state) (w : world) :
  EMAIL_REGEXP_test LoginComponent.HARDCODED_EMAIL = true ->
  let st' := (LoginComponent.quickLogin st w).1 in
  let w' := (LoginComponent.quickLogin st w).2 in
  LoginComponent.email st' = VStr LoginComponent.HARDCODED_EMAIL /\
  LoginComponent.password st' = VStr LoginComponent.HARDCODED_PASSWORD /\
  LoginComponent.isLoading st' = true /\
  LoginComponent.error st' = VStr "" /\
  w' = emit (SetTimeout 1000) w.
Proof.
  intros Hmail. cbv zeta.
  unfold LoginComponent.quickLogin, LoginComponent.onSubmit.
  assert (Hv : LoginComponent.valid (LoginComponent.autoFillCredentials st) = true).
  { unfold LoginComponent.valid, Validators.email. cbn. now rewrite Hmail. }
  rewrite Hv. cbn. repeat split.
Qed.

(** The answer of the login request. Without a truthy token nothing is
    stored, nothing is asked for and the error text is left as it was: the
    component only stops loading. With one, the storage holds the texts of
    the token and of the user, and the dashboard is asked for; a response
    without user stores the text "undefined". *)
Theorem attemptApiLogin_answer (token user : value) (st : LoginComponent.state)
    (w : world) :
  let st' := (LoginComponent.attemptApiLogin_next token user st w).1 in
  let w' := (LoginComponent.attemptApiLogin_next token user st w).2 in
  LoginComponent.isLoading st' = false /\
  LoginComponent.error st' = LoginComponent.error st /\
  (ToBoolean token = false -> w' = w) /\
  (ToBoolean token = true ->
     getItem "authToken" w' = VStr (ToString token) /\
     getItem "user" w' = VStr (ToString user) /\
     (user = VUndefined -> getItem "user" w' = VStr "undefined") /\
     effects w' = effects w ++ [Navigate [VStr "/dashboard"]]).
Proof.
  cbv zeta. unfold LoginComponent.attemptApiLogin_next.
  destruct (ToBoolean token); cbn.
  - split; [reflexivity |]. split; [reflexivity |]. split; [discriminate |].
    intros _. unfold getItem. cbn.
    rewrite lookup_insert_ne, !lookup_insert_eq by discriminate.
    split; [reflexivity |]. split; [reflexivity |].
    split; [intros ->; reflexivity | reflexivity].
  - repeat split; discriminate.
Qed.

(** The error text after a failed login is never falsy: it is the message
    of the error when that is truthy, and the text of the component
    otherwise, also when the error has no body. *)
Theorem attemptApiLogin_error_text (err_error : option raw)
    (st : LoginComponent.state) :
  let st' := LoginComponent.attemptApiLogin_error err_error st in
  let default := VStr "Login failed. Please check your credentials." in
  ToBoolean (LoginComponent.error st') = true /\
  LoginComponent.isLoading st' = false /\
  (forall o, err_error = Some o -> ToBoolean (get o "message") = true ->
     LoginComponent.error st' = get o "message") /\
  (forall o, err_error = Some o -> ToBoolean (get o "message") = false ->
     LoginComponent.error st' = default) /\
  (err_error = None -> LoginComponent.error st' = default).
Proof.
  cbv zeta. unfold LoginComponent.attemptApiLogin_error, or_else. cbn.
  split.
  { destruct err_error as [o |]; [| reflexivity].
    destruct (ToBoolean (get o "message")) eqn:E; [exact E | reflexivity]. }
  split; [reflexivity |].
  split; [intros o -> E; now rewrite E |].
  split; [intros o -> E; now rewrite E |].
  intros ->. reflexivity.
Qed.

End Session.

Lemma quickLogin_never_asks_the_server_witness :
  @EMAIL_REGEXP_test AsciiPlatform.platform LoginComponent.HARDCODED_EMAIL = true /\
  (@LoginComponent.quickLogin AsciiHost.host AsciiPlatform.platform
     LoginComponent.constructed {| localStorage := ∅; effects := [] |}).2
  = {| localStorage := ∅; effects := [SetTimeout 1000] |}.
Proof.
  assert (Hmail : @EMAIL_REGEXP_test AsciiPlatform.platform
                    LoginComponent.HARDCODED_EMAIL = true) by reflexivity.
  split; [exact Hmail |].
  apply (quickLogin_never_asks_the_server (H := AsciiHost.host)
           (H0 := AsciiPlatform.platform) LoginComponent.constructed
           {| localStorage := ∅; effects := [] |} Hmail).
Defined.

End SessionFacts.

(* ===================================================================== *)
(** * The form of a new prompt *)
(* ===================================================================== *)

Module AddPromptFacts.
Import JS Spec JSFacts Browser.

Section AddPrompt.
Context `{Host} `{Platform}.

Lemma minLength_text (n : nat) (s : string) :
  Validators.required (VStr s) && Validators.minLength (S n) (VStr s) = true
  <-> (S n <= String.length s)%nat.
Proof.
  unfold Validators.required, Validators.minLength, Validators.isEmptyInputValue.
  destruct (Nat.eqb_spec (String.length s) 0) as [E | E];
    destruct (Nat.leb_spec (S n) (String.length s)); cbn; split;
    try lia; try discriminate; auto.
Qed.

Lemma range_number (L : Z) :
  Validators.required (VNum (Int L)) && Validators.min 1 (VNum (Int L)) &&
  Validators.max 10 (VNum (Int L)) = true <-> 1 <= L <= 10.
Proof.
  unfold Validators.required, Validators.min, Validators.max. cbn.
  destruct (Z.leb_spec 1 L); destruct (Z.leb_spec L 10); cbn; split;
    try lia; try discriminate; auto.
Qed.

(** [savePrompt] on a form with a text as title, a text as description and
    an integer as complexity: the form is valid exactly when the title has
    three characters or more, the level lies in 1..10 and the description
    has twenty characters or more. A valid form is posted once, its
    description as [content]; the level it posts is one the library labels
    as the form did, never "Unknown". A form that is not valid is not
    posted, and nothing else happens; the form as [ngOnInit] builds it is
    such a form. *)
Theorem savePrompt_needs_a_complete_form (t d : string) (L : Z) (w : world) :
  let f := {| AddPromptForm.title := VStr t;
              AddPromptForm.complexity := VNum (Int L);
              AddPromptForm.description := VStr d |} in
  (AddPromptForm.valid f = true <->
     (3 <= String.length t)%nat /\ 1 <= L <= 10 /\ (20 <= String.length d)%nat) /\
  (AddPromptForm.valid f = true ->
     AddPromptForm.savePrompt f w
       = emit (HttpPost "http://127.0.0.1:8000/api/prompts/create/"
                 {[ "title" := VStr t; "content" := VStr d;
                    "complexity" := VNum (Int L) ]}) w /\
     PromptLibraryComponent.getComplexityText (VNum (Int L))
       = AddPromptComponent.getComplexityText (VNum (Int L)) /\
     PromptLibraryComponent.getComplexityText (VNum (Int L)) <> "Unknown") /\
  (AddPromptForm.valid f = false -> AddPromptForm.savePrompt f w = w) /\
  AddPromptForm.savePrompt AddPromptForm.ngOnInit w = w.
Proof.
  cbv zeta.
  assert (Hv : AddPromptForm.valid
                 {| AddPromptForm.title := VStr t;
                    AddPromptForm.complexity := VNum (Int L);
                    AddPromptForm.description := VStr d |} = true <->
               (3 <= String.length t)%nat /\ 1 <= L <= 10 /\
               (20 <= String.length d)%nat).
  { unfold AddPromptForm.valid. cbn [AddPromptForm.title AddPromptForm.complexity
                                       AddPromptForm.description].
    pose proof (minLength_text 2 t) as Ht.
    pose proof (minLength_text 19 d) as Hd.
    pose proof (range_number L) as HL.
    destruct (Validators.required (VStr t) && Validators.minLength 3 (VStr t));
      destruct (Validators.required (VNum (Int L)) &&
                Validators.min 1 (VNum (Int L)) && Validators.max 10 (VNum (Int L)));
      destruct (Validators.required (VStr d) && Validators.minLength 20 (VStr d));
      cbn; intuition (try discriminate; try lia). }
  split; [exact Hv |].
  split.
  { intros E. split; [unfold AddPromptForm.savePrompt; now rewrite E |].
    apply Hv in E. destruct E as (_ & HL & _).
    unfold PromptLibraryComponent.getComplexityText,
      AddPromptComponent.getComplexityText, js_ge, js_le. cbn.
    destruct (Z.leb_spec 1 L); [| lia].
    destruct (Z.eqb_spec L 0); [lia |].
    destruct (Z.leb_spec L 3); cbn; [split; [reflexivity | discriminate] |].
    destruct (Z.leb_spec 4 L); [| lia].
    destruct (Z.leb_spec L 7); cbn; [split; [reflexivity | discriminate] |].
    destruct (Z.leb_spec 8 L); [| lia].
    destruct (Z.leb_spec L 10); [| lia]. cbn. split; [reflexivity | discriminate]. }
  split.
  { intros E. unfold AddPromptForm.savePrompt. now rewrite E. }
  reflexivity.
Qed.

End AddPrompt.
End AddPromptFacts.

(* ===================================================================== *)
(** * The page of one prompt *)
(* ===================================================================== *)

Module DetailPageFacts.
Import JS Spec JSFacts Browser.

Section DetailPage.
Context `{Host}.

Lemma append_inj_l (a b c : string) : a +:+ b = a +:+ c -> b = c.
Proof.
  induction a as [| x a IH]; [auto |].
  rewrite !append_cons. intros E. injection E. exact IH.
Qed.

Lemma append_inj_r (a b : string) (c : ascii) :
  a +:+ String c "" = b +:+ String c "" -> a = b.
Proof.
  revert b. induction a as [| x a IH]; intros [| y b]; cbn; intros E.
  - reflexivity.
  - injection E as -> E. destruct b; discriminate.
  - injection E as -> E. destruct a; discriminate.
  - rewrite !append_cons in E. injection E as -> E. f_equal. now apply IH.
Qed.

(** [ngOnInit] of the detail page keeps the id of the route and never
    touches the storage. Without an id (null or the empty text) no request
    is sent, the error text says so and the page stops loading. With one,
    exactly the request for the URL of that id is sent, and two ids have
    the same URL only when they are the same text. *)
Theorem detail_request_for_the_route_id (id : value) (a b : string)
    (st st2 : PromptDetailPage.state) (w w2 : world) :
  let st' := (PromptDetailPage.ngOnInit id st w).1 in
  let w' := (PromptDetailPage.ngOnInit id st w).2 in
  PromptDetailPage.routeId st' = id /\
  PromptDetailPage.prompt st' = PromptDetailPage.prompt st /\
  localStorage w' = localStorage w /\
  (ToBoolean id = false ->
     w' = w /\ PromptDetailPage.error st' = VStr "No ID found in route" /\
     PromptDetailPage.isLoading st' = false) /\
  (ToBoolean id = true ->
     w' = emit (HttpGet ("http://127.0.0.1:8000/api/prompts/" +:+ ToString id +:+ "/")) w /\
     PromptDetailPage.apiUrl st'
       = "http://127.0.0.1:8000/api/prompts/" +:+ ToString id +:+ "/" /\
     PromptDetailPage.error st' = PromptDetailPage.error st /\
     PromptDetailPage.isLoading st' = PromptDetailPage.isLoading st) /\
  (a <> "" -> b <> "" ->
   PromptDetailPage.apiUrl (PromptDetailPage.ngOnInit (VStr a) st w).1
     = PromptDetailPage.apiUrl (PromptDetailPage.ngOnInit (VStr b) st2 w2).1 ->
   a = b).
Proof.
  cbv zeta. unfold PromptDetailPage.ngOnInit.
  split; [destruct (ToBoolean id); reflexivity |].
  split; [destruct (ToBoolean id); reflexivity |].
  split; [destruct (ToBoolean id); reflexivity |].
  split; [intros ->; repeat split |].
  split; [intros ->; repeat split |].
  intros Ha Hb. cbn [ToBoolean].
  apply String.eqb_neq in Ha, Hb. rewrite Ha, Hb.
  cbn [negb fst PromptDetailPage.apiUrl ToString]. intros E.
  apply append_inj_l in E. now apply append_inj_r in E.
Qed.




End DetailPage.
End DetailPageFacts.

(* ===================================================================== *)
(** * Where the pages lead *)
(* ===================================================================== *)

Module RouteFacts.
Import JS Spec JSFacts Browser Router.

Ltac by_eqb :=
  repeat match goal with
  | |- context [String.eqb ?a ?b] => destruct (String.eqb a b)
  end.

(** A route of one literal part. *)
Ltac literal_route :=
  intros c segments;
  unfold matchSegmentAgainstRoute, match_route;
  cbn [path pathMatch component];
  match goal with
  | |- context [String.eqb ?p "**"] => change (String.eqb p "**") with false
  end;
  match goal with
  | |- context [String.eqb ?p ""] => change (String.eqb p "") with false
  end;
  cbv iota;
  match goal with
  | |- context [split ?c ?p] =>
      let v := eval vm_compute in (split c p) in change (split c p) with v
  end;
  destruct segments as [| s [| s' rest]]; [reflexivity | |];
  cbn -[String.eqb]; by_eqb; reflexivity.

Lemma route_login (c : option AppRoutes.Component) (segments : list string) :
  matchSegmentAgainstRoute
    {| path := "login"; component := c; redirectTo := None; pathMatch := prefix |}
    segments
  = match segments with
    | [s] => if String.eqb "login" s then Activated c ∅ else NoMatch
    | _ => NoMatch
    end.
Proof. revert c segments. literal_route. Qed.

Lemma route_dashboard (c : option AppRoutes.Component) (segments : list string) :
  matchSegmentAgainstRoute
    {| path := "dashboard"; component := c; redirectTo := None;
       pathMatch := prefix |}
    segments
  = match segments with
    | [s] => if String.eqb "dashboard" s then Activated c ∅ else NoMatch
    | _ => NoMatch
    end.
Proof. revert c segments. literal_route. Qed.

Lemma route_prompts (c : option AppRoutes.Component) (segments : list string) :
  matchSegmentAgainstRoute
    {| path := "prompts"; component := c; redirectTo := None;
       pathMatch := prefix |}
    segments
  = match segments with
    | [s] => if String.eqb "prompts" s then Activated c ∅ else NoMatch
    | _ => NoMatch
    end.
Proof. revert c segments. literal_route. Qed.

Lemma route_add (c : option AppRoutes.Component) (segments : list string) :
  matchSegmentAgainstRoute
    {| path := "add"; component := c; redirectTo := None; pathMatch := prefix |}
    segments
  = match segments with
    | [s] => if String.eqb "add" s then Activated c ∅ else NoMatch
    | _ => NoMatch
    end.
Proof. revert c segments. literal_route. Qed.

Lemma route_prompts_id (c : option AppRoutes.Component) (segments : list string) :
  matchSegmentAgainstRoute
    {| path := "prompts/:id"; component := c; redirectTo := None;
       pathMatch := prefix |}
    segments
  = match segments with
    | [a; b] =>
        if String.eqb "prompts" a then Activated c (<["id" := b]> ∅) else NoMatch
    | _ => NoMatch
    end.
Proof.
  unfold matchSegmentAgainstRoute, match_route.
  cbn [path pathMatch component].
  change (String.eqb "prompts/:id" "**") with false.
  change (String.eqb "prompts/:id" "") with false. cbv iota.
  change (split "/" "prompts/:id") with ["prompts"; ":id"].
  destruct segments as [| a [| b [| b' rest]]]; [reflexivity | | |];
    cbn -[String.eqb insert]; by_eqb; reflexivity.
Qed.

Lemma redirected_to_dashboard :
  processSegment_redirected AppRoutes.routes ["dashboard"]
  = Activated (Some AppRoutes.PromptLibraryComponent) ∅.
Proof. vm_compute. reflexivity. Qed.

Lemma route_empty (c : option AppRoutes.Component) (segments : list string) :
  expandSegmentAgainstRouteUsingRedirect AppRoutes.routes
    {| path := ""; component := c; redirectTo := Some "dashboard";
       pathMatch := full |}
    "dashboard" segments
  = match segments with
    | [] => Activated (Some AppRoutes.PromptLibraryComponent) ∅
    | _ => NoMatch
    end.
Proof.
  unfold expandSegmentAgainstRouteUsingRedirect, match_route.
  cbn [path pathMatch].
  change (String.eqb "" "**") with false. change (String.eqb "" "") with true.
  cbv iota. destruct segments; [| reflexivity].
  change (applyRedirectCommands (filter nonempty (split "/" "dashboard")) ∅)
    with (Some ["dashboard"]).
  cbv iota. apply redirected_to_dashboard.
Qed.

Lemma route_wildcard (c : option AppRoutes.Component) (segments : list string) :
  expandSegmentAgainstRouteUsingRedirect AppRoutes.routes
    {| path := "**"; component := c; redirectTo := Some "dashboard";
       pathMatch := prefix |}
    "dashboard" segments
  = Activated (Some AppRoutes.PromptLibraryComponent) ∅.
Proof.
  unfold expandSegmentAgainstRouteUsingRedirect, match_route.
  cbn [path pathMatch].
  change (String.eqb "**" "**") with true. cbv iota.
  change (applyRedirectCommands (filter nonempty (split "/" "dashboard")) ∅)
    with (Some ["dashboard"]).
  cbv iota. apply redirected_to_dashboard.
Qed.

(** The table as a decision on the segments. *)
Lemma processSegment_routes (segments : list string) :
  processSegment AppRoutes.routes segments
  = match segments with
    | [] => Activated (Some AppRoutes.PromptLibraryComponent) ∅
    | [s] =>
        if String.eqb "login" s
        then Activated (Some AppRoutes.LoginComponent) ∅
        else if String.eqb "dashboard" s || String.eqb "prompts" s
        then Activated (Some AppRoutes.PromptLibraryComponent) ∅
        else if String.eqb "add" s
        then Activated (Some AppRoutes.AddPromptComponent) ∅
        else Activated (Some AppRoutes.PromptLibraryComponent) ∅
    | [a; b] =>
        if String.eqb "prompts" a
        then Activated (Some AppRoutes.PromptDetailComponent) {[ "id" := b ]}
        else Activated (Some AppRoutes.PromptLibraryComponent) ∅
    | _ => Activated (Some AppRoutes.PromptLibraryComponent) ∅
    end.
Proof.
  unfold processSegment.
  set (against := fun route : Route AppRoutes.Component => _).
  unfold AppRoutes.routes. cbn [first_match]. subst against. cbv beta.
  cbn [redirectTo].
  rewrite route_empty, route_login, route_dashboard, route_prompts, route_add,
    route_prompts_id, route_wildcard.
  destruct segments as [| s1 [| s2 [| s3 rest]]]; try reflexivity.
  - by_eqb; reflexivity.
  - by_eqb; reflexivity.
Qed.

(** The route table, on every URL, as the list of its segments: a page is
    always shown. [prompts/<id>] is the detail page with that id, [login]
    the login page, [add] the form of a new prompt, and every other URL,
    the empty one and unknown ones among them, shows the library, with no
    parameters. *)
Theorem every_url_shows_a_page (segments : list string) :
  let shown := processSegment AppRoutes.routes segments in
  (forall id, segments = ["prompts"; id] ->
     shown = Activated (Some AppRoutes.PromptDetailComponent) {[ "id" := id ]}) /\
  (segments = ["login"] -> shown = Activated (Some AppRoutes.LoginComponent) ∅) /\
  (segments = ["add"] -> shown = Activated (Some AppRoutes.AddPromptComponent) ∅) /\
  ((forall id, segments <> ["prompts"; id]) -> segments <> ["login"] ->
   segments <> ["add"] ->
   shown = Activated (Some AppRoutes.PromptLibraryComponent) ∅).
Proof.
  cbv zeta. rewrite processSegment_routes.
  split; [intros id ->; reflexivity |].
  split; [intros ->; reflexivity |].
  split; [intros ->; reflexivity |].
  intros Hd Hl Ha.
  destruct segments as [| s1 [| s2 [| s3 rest]]]; try reflexivity.
  - destruct (String.eqb_spec "login" s1) as [<- | _]; [congruence |].
    destruct (String.eqb "dashboard" s1 || String.eqb "prompts" s1);
      [reflexivity |].
    destruct (String.eqb_spec "add" s1) as [<- | _]; [congruence | reflexivity].
  - destruct (String.eqb_spec "prompts" s1) as [<- | _]; [| reflexivity].
    exfalso. now apply (Hd s2).
Qed.

Section Navigation.
Context `{Host} `{Platform}.

(** Every page a component asks the router for is the page it means:
    [logout], from the navigation bar or the library, ends on the login
    page; the add button of the library on the form of a new prompt; a saved
    prompt and both back buttons on the library, through the redirect of the
    empty path; and a login, with the demo credentials or through the
    server, on the library. *)
Theorem where_the_components_navigate (w : world) (now : Z)
    (st : LoginComponent.state) (token user : value) :
  let lands := fun (w' : world) (c : AppRoutes.Component) =>
    exists commands,
      effects w' = effects w ++ [Navigate commands] /\
      navigate AppRoutes.routes commands = Some (Activated (Some c) ∅) in
  lands (NavbarComponent.logout w) AppRoutes.LoginComponent /\
  lands (PromptLibraryActions.logout w) AppRoutes.LoginComponent /\
  lands (PromptLibraryActions.navigateToAddPrompt w) AppRoutes.AddPromptComponent /\
  lands (AddPromptForm.savePrompt_next w) AppRoutes.PromptLibraryComponent /\
  lands (AddPromptForm.goBack w) AppRoutes.PromptLibraryComponent /\
  lands (PromptDetailPage.goBack w) AppRoutes.PromptLibraryComponent /\
  lands (LoginComponent.handleSuccessfulLogin_timeout now st w).2
    AppRoutes.PromptLibraryComponent /\
  (ToBoolean token = true ->
   lands (LoginComponent.attemptApiLogin_next token user st w).2
     AppRoutes.PromptLibraryComponent).
Proof.
  cbv zeta.
  assert (Hlogin : navigate AppRoutes.routes [VStr "/login"]
                   = Some (Activated (Some AppRoutes.LoginComponent) ∅))
    by (vm_compute; reflexivity).
  assert (Hadd : navigate AppRoutes.routes [VStr "/add"]
                 = Some (Activated (Some AppRoutes.AddPromptComponent) ∅))
    by (vm_compute; reflexivity).
  assert (Hroot : navigate AppRoutes.routes [VStr "/"]
                  = Some (Activated (Some AppRoutes.PromptLibraryComponent) ∅))
    by (vm_compute; reflexivity).
  assert (Hdash : navigate AppRoutes.routes [VStr "/dashboard"]
                  = Some (Activated (Some AppRoutes.PromptLibraryComponent) ∅))
    by (vm_compute; reflexivity).
  split; [exists [VStr "/login"]; split; [reflexivity | exact Hlogin] |].
  split; [exists [VStr "/login"]; split; [reflexivity | exact Hlogin] |].
  split; [exists [VStr "/add"]; split; [reflexivity | exact Hadd] |].
  split; [exists [VStr "/"]; split; [reflexivity | exact Hroot] |].
  split; [exists [VStr "/"]; split; [reflexivity | exact Hroot] |].
  split; [exists [VStr "/"]; split; [reflexivity | exact Hroot] |].
  split; [exists [VStr "/dashboard"]; split; [reflexivity | exact Hdash] |].
  intros E. exists [VStr "/dashboard"]. split; [| exact Hdash].
  unfold LoginComponent.attemptApiLogin_next. rewrite E. reflexivity.
Qed.

(** A click on a card of the library, to the request of the detail page.
    A falsy id (0, the empty text, a missing one) does nothing: that prompt
    cannot be opened. Any other id is sent to the router, the route found is
    the detail page, its [id] parameter is the text of the id, and
    [ngOnInit] of the detail page then requests the URL of that id. The text
    of an id is not empty for a text and for an integer below 10^21 in
    size. *)
Theorem card_click_requests_the_prompt (promptId index : value)
    (st : PromptDetailPage.state) (w w2 : world) :
  let url := "http://127.0.0.1:8000/api/prompts/" +:+ ToString promptId +:+ "/" in
  (ToBoolean promptId = false ->
     PromptLibraryActions.navigateToPromptDetail promptId index w = w) /\
  (ToBoolean promptId = true ->
     exists params,
       PromptLibraryActions.navigateToPromptDetail promptId index w
         = emit (Navigate [VStr "/prompts"; promptId]) w /\
       navigate AppRoutes.routes [VStr "/prompts"; promptId]
         = Some (Activated (Some AppRoutes.PromptDetailComponent) params) /\
       paramMap_get params "id" = VStr (ToString promptId) /\
       (ToString promptId <> "" ->
        (PromptDetailPage.ngOnInit (paramMap_get params "id") st w2).2
          = emit (HttpGet url) w2)) /\
  (forall s, promptId = VStr s -> ToBoolean promptId = true ->
     ToString promptId <> "") /\
  (forall z, promptId = VNum (Int z) -> z <> 0 -> Z.abs z < 10 ^ 21 ->
     ToBoolean promptId = true /\ ToString promptId <> "").
Proof.
  cbv zeta.
  split.
  { intros E. unfold PromptLibraryActions.navigateToPromptDetail. now rewrite E. }
  split.
  { intros E. exists {[ "id" := ToString promptId ]}.
    split; [unfold PromptLibraryActions.navigateToPromptDetail; now rewrite E |].
    split.
    { unfold navigate, computeNavigation.
      change (first_command (split "/" "/prompts")) with (Some ["prompts"]).
      assert (Hl : later_commands [promptId] = Some [ToString promptId]).
      { destruct promptId; try discriminate; reflexivity. }
      rewrite Hl. cbn [app]. rewrite processSegment_routes.
      now rewrite String.eqb_refl. }
    assert (Hp : paramMap_get {[ "id" := ToString promptId ]} "id"
                 = VStr (ToString promptId)).
    { unfold paramMap_get. now rewrite lookup_singleton_eq. }
    split; [exact Hp |].
    intros Hne. rewrite Hp. unfold PromptDetailPage.ngOnInit. cbn [ToBoolean].
    apply String.eqb_neq in Hne. rewrite Hne. reflexivity. }
  split.
  { intros s -> E. cbn in E |- *. intros ->. discriminate. }
  intros z -> Hz Hsmall. split.
  { cbn. now destruct (Z.eqb_spec z 0). }
  cbn [ToString].
  destruct (Number_toString_sign z Hz Hsmall) as (digits & Hd & ->).
  destruct (z <? 0); [discriminate | exact Hd].
Qed.

End Navigation.
End RouteFacts.
